(** * RaspberryPiADS1298: the ADS1298 driver of [Ads1298Api.py]

    A shallow embedding of the Python module [RaspberryPiADS1298/Ads1298Api.py]
    and the properties of its codec, register protocol, configuration
    interface and acquisition path.

    Conventions of the embedding.
    - Python integers are [Z]; a byte sequence ([bytes], or the list of
      integers returned by [spidev]) is a [list Z].
    - A Python exception is a constructor of [exn]; a call that can raise
      returns a [result].
    - Methods of the class [Ads1298Api] are computations of the monad [M],
      which threads the [world]: the attributes of the instance, the two
      mutable class attributes, and the trace of calls made to the outside
      (SPI, GPIO, [sleep], [print], threads, client handles).  An
      exception keeps the state reached when it was raised.
    - Floating point values are Rocq's primitive binary64 floats, the format
      of Python's [float].
    - The thread of [stub_task] and the finalizer [__del__] run outside the
      calls of the program and are not part of the embedding. *)

From Stdlib Require Import ZArith Lia List.
From Stdlib Require Import Floats.PrimFloat Numbers.Cyclic.Int63.Uint63.
From stdpp Require Import base list gmap strings.

Local Open Scope Z_scope.

(** ** Exceptions and results *)

Inductive exn : Type :=
| ValueError (msg : string)
| AssertionError (msg : string)
| AttributeError (attr : string)
| NameError (name : string)
| TypeError (msg : string)
| IndexError
| StructError          (* struct.error *)
| OSError.             (* a failure reported by the SPI transfer *)

Inductive result (A : Type) : Type :=
| Ok (a : A)
| Err (e : exn).
Arguments Ok {A} a.
Arguments Err {A} e.

Definition bindR {A B : Type} (m : result A) (k : A -> result B) : result B :=
  match m with
  | Ok a => k a
  | Err e => Err e
  end.

Declare Scope result_scope.
Delimit Scope result_scope with res.
Notation "x <- c1 ;; c2" := (bindR c1 (fun x => c2))
  (at level 100, c1 at next level, c2 at level 200, right associativity) : result_scope.

Definition is_ok {A : Type} (r : result A) : bool :=
  match r with Ok _ => true | Err _ => false end.

(** ** Module constants *)

Definition NUM_CHANNELS : nat := 8.

(** [float(n)] for a Python integer that a binary64 float represents exactly. *)
Definition float_of_Z (z : Z) : float :=
  if z <? 0 then PrimFloat.opp (PrimFloat.of_uint63 (Uint63.of_Z (- z)))
  else PrimFloat.of_uint63 (Uint63.of_Z z).

(** [SCALE_TO_UVOLT = (5 / 12) / (2 ** 24)] *)
Definition SCALE_TO_UVOLT : float :=
  PrimFloat.div (PrimFloat.div (float_of_Z 5) (float_of_Z 12)) (float_of_Z (2 ^ 24)).

(** ** Codec *)

Local Open Scope result_scope.

(** The two format strings the module passes to [struct.unpack]:
    [">i"] (big-endian signed 32 bit) and [">I"] (big-endian unsigned). *)
Inductive fmt : Type := FmtSigned | FmtUnsigned.

Definition is_byte (b : Z) : bool := (0 <=? b) && (b <=? 255).

(** Python's [seq[i]] for a non-negative index. *)
Definition index {A : Type} (l : list A) (i : nat) : result A :=
  match l !! i with
  | Some x => Ok x
  | None => Err IndexError
  end.

(** Python's [seq[a:b]] for non-negative bounds: it clips at the end. *)
Definition slice {A : Type} (l : list A) (a b : nat) : list A :=
  take (b - a) (drop a l).

(** [struct.pack("3B", *unpacked)]: three arguments, each in 0..255. *)
Definition struct_pack_3B (unpacked : list Z) : result (list Z) :=
  match unpacked with
  | [_; _; _] => if forallb is_byte unpacked then Ok unpacked else Err StructError
  | _ => Err StructError
  end.

(** [struct.unpack(fmt, data)[0]] for four bytes of data. *)
Definition struct_unpack (f : fmt) (data : list Z) : result Z :=
  match data with
  | [a; b; c; d] =>
      let u := ((a * 256 + b) * 256 + c) * 256 + d in
      Ok (match f with
          | FmtUnsigned => u
          | FmtSigned => if u <? 2 ^ 31 then u else u - 2 ^ 32
          end)
  | _ => Err StructError
  end.

Definition convert_24b_data (unpacked : list Z) (f : fmt) : result Z :=
  if negb (length unpacked =? 3)%nat
  then Err (ValueError "Input should be 3 bytes long.")
  else
    literal_read <- struct_pack_3B unpacked ;;
    first <- index unpacked 0 ;;
    let prefix := if first >? 127 then 0xff else 0x00 in
    struct_unpack f (prefix :: literal_read).

Definition convert_24b_to_float (unpacked : list Z) : result float :=
  v <- convert_24b_data unpacked FmtSigned ;;
  Ok (PrimFloat.mul (float_of_Z v) SCALE_TO_UVOLT).

(** The value of three bytes read most significant first. *)
Definition be24 (b0 b1 b2 : Z) : Z := b0 * 65536 + b1 * 256 + b2.

(** [samples[i] = convert_24b_to_float(raw[i*3+3 : (i+1)*3+3])] for the
    indices [i] of the loop of [default_callback], in order. *)
Fixpoint fill_samples (raw : list Z) (indices : list nat) (samples : list float)
  : result (list float) :=
  match indices with
  | [] => Ok samples
  | i :: rest =>
      v <- convert_24b_to_float (slice raw (i * 3 + 3) ((i + 1) * 3 + 3)) ;;
      fill_samples raw rest (<[i := v]> samples)
  end.

Local Close Scope result_scope.

(** ** Register map, commands and pins *)

Definition REG_ID : Z := 0x00.
Definition REG_CONFIG1 : Z := 0x01.
Definition REG_CONFIG2 : Z := 0x02.
Definition REG_CONFIG3 : Z := 0x03.
Definition REG_CONFIG4 : Z := 0x17.
Definition REG_LOFF : Z := 0x04.
Definition REG_CHnSET_BASE : Z := 0x05.
Definition REG_BIAS_SENSP : Z := 0x0D.
Definition REG_BIAS_SENSN : Z := 0x0E.
Definition REG_LOFF_SENSP : Z := 0x0F.
Definition REG_LOFF_SENSN : Z := 0x10.
Definition REG_LOFF_FLIP : Z := 0x11.
Definition REG_WCT1 : Z := 0x18.
Definition REG_WCT2 : Z := 0x19.

Definition WAKEUP : Z := 0x02.
Definition STANDBY : Z := 0x04.
Definition RESET : Z := 0x06.
Definition START : Z := 0x08.
Definition STOP : Z := 0x0A.
Definition RDATAC : Z := 0x10.
Definition SDATAC : Z := 0x11.
Definition RDATA : Z := 0x12.

Definition START_PIN : Z := 22.
Definition nRESET_PIN : Z := 24.
Definition nPWRDN_PIN : Z := 25.
Definition DRDY_PIN : Z := 23.
Definition CE1 : Z := 7.

(** The class attributes [spi_speed] and [spi_pause]; no code assigns them. *)
Definition spi_speed : Z := 5000000.
Definition spi_pause : Z := 3.

(** ** The world of the driver *)

(** A client handle: the module's own [default_callback], or a callable of
    the client, known by an identifier. *)
Inductive handle : Type :=
| DefaultCallback
| Client (id : nat).

Inductive line : Type :=
| Text (s : string)
| LoffLine (loff_stat_p loff_stat_n : Z)      (* LOFF P{:08b} N{:08b} *)
| SamplesLine (samples : list float).         (* samples: {samples} *)

(** Calls that leave the module, in the order they are made. *)
Inductive event : Type :=
| SpiOpen (bus device : Z)
| SpiSetMaxSpeedHz (hz : Z)
| SpiSetMode (mode : Z)
| SpiXfer (tx : list Z) (speed_hz delay_usec : Z)
| SpiClose
| GpioSetmodeBCM
| GpioSetupOut (pin : Z) (initial : bool)
| GpioSetupIn (pin : Z)
| GpioAddEventDetect (pin : Z)                (* GPIO.FALLING, drdy_callback *)
| GpioOutput (pin : Z) (level : bool)
| GpioCleanup
| Sleep (milliseconds : Z)
| Print (l : line)
| ThreadStart                                 (* Thread(target=stub_task).start() *)
| ThreadJoin
| Call (h : handle) (raw : list Z).           (* handle(raw) is entered *)

(** The attributes of one instance.  [spi_lock] and [stubThread] are [None]
    ([false]) until [open_device] assigns them. *)
Record Ads1298Api : Type := mkApi {
  spi_lock : bool;
  stubThread : bool;
  APIAlive : bool;
  nb_channels : Z;
  sampling_rate : Z;
  bias_enabled : bool;
  stream_active : bool
}.

(** [clientUpdateHandles = []] and [config_registers = dict()] are class
    attributes that the methods mutate in place: one list and one dictionary
    for the class, whichever instance [self] is. *)
Record world : Type := mkWorld {
  self : Ads1298Api;
  clientUpdateHandles : list handle;
  config_registers : gmap Z Z;
  trace : list event
}.

(** [Ads1298Api()]: the attributes have the defaults of the class. *)
Definition new_api : Ads1298Api :=
  {| spi_lock := false; stubThread := false; APIAlive := true;
     nb_channels := 8; sampling_rate := 500; bias_enabled := false;
     stream_active := false |}.

Definition new_world : world :=
  {| self := new_api; clientUpdateHandles := []; config_registers := ∅; trace := [] |}.

Definition with_self (f : Ads1298Api -> Ads1298Api) (w : world) : world :=
  {| self := f (self w); clientUpdateHandles := clientUpdateHandles w;
     config_registers := config_registers w; trace := trace w |}.

Definition with_handles (f : list handle -> list handle) (w : world) : world :=
  {| self := self w; clientUpdateHandles := f (clientUpdateHandles w);
     config_registers := config_registers w; trace := trace w |}.

Definition with_registers (f : gmap Z Z -> gmap Z Z) (w : world) : world :=
  {| self := self w; clientUpdateHandles := clientUpdateHandles w;
     config_registers := f (config_registers w); trace := trace w |}.

Definition add_event (e : event) (w : world) : world :=
  {| self := self w; clientUpdateHandles := clientUpdateHandles w;
     config_registers := config_registers w; trace := trace w ++ [e] |}.

Definition set_spi_lock (v : bool) (a : Ads1298Api) : Ads1298Api :=
  {| spi_lock := v; stubThread := stubThread a; APIAlive := APIAlive a;
     nb_channels := nb_channels a; sampling_rate := sampling_rate a;
     bias_enabled := bias_enabled a; stream_active := stream_active a |}.

Definition set_stubThread (v : bool) (a : Ads1298Api) : Ads1298Api :=
  {| spi_lock := spi_lock a; stubThread := v; APIAlive := APIAlive a;
     nb_channels := nb_channels a; sampling_rate := sampling_rate a;
     bias_enabled := bias_enabled a; stream_active := stream_active a |}.

Definition set_APIAlive (v : bool) (a : Ads1298Api) : Ads1298Api :=
  {| spi_lock := spi_lock a; stubThread := stubThread a; APIAlive := v;
     nb_channels := nb_channels a; sampling_rate := sampling_rate a;
     bias_enabled := bias_enabled a; stream_active := stream_active a |}.

Definition set_sampling_rate_attr (v : Z) (a : Ads1298Api) : Ads1298Api :=
  {| spi_lock := spi_lock a; stubThread := stubThread a; APIAlive := APIAlive a;
     nb_channels := nb_channels a; sampling_rate := v;
     bias_enabled := bias_enabled a; stream_active := stream_active a |}.

Definition set_bias_enabled (v : bool) (a : Ads1298Api) : Ads1298Api :=
  {| spi_lock := spi_lock a; stubThread := stubThread a; APIAlive := APIAlive a;
     nb_channels := nb_channels a; sampling_rate := sampling_rate a;
     bias_enabled := v; stream_active := stream_active a |}.

Definition set_stream_active (v : bool) (a : Ads1298Api) : Ads1298Api :=
  {| spi_lock := spi_lock a; stubThread := stubThread a; APIAlive := APIAlive a;
     nb_channels := nb_channels a; sampling_rate := sampling_rate a;
     bias_enabled := bias_enabled a; stream_active := v |}.

(** ** The monad of the methods *)

Definition M (A : Type) : Type := world -> result A * world.

Definition ret {A : Type} (a : A) : M A := fun w => (Ok a, w).

Definition raise {A : Type} (e : exn) : M A := fun w => (Err e, w).

Definition bind {A B : Type} (m : M A) (k : A -> M B) : M B :=
  fun w =>
    match m w with
    | (Ok a, w') => k a w'
    | (Err e, w') => (Err e, w')
    end.

Definition lift {A : Type} (r : result A) : M A := fun w => (r, w).

Definition get {A : Type} (f : Ads1298Api -> A) : M A := fun w => (Ok (f (self w)), w).

Definition set_attr (f : Ads1298Api -> Ads1298Api) : M unit :=
  fun w => (Ok tt, with_self f w).

Definition emit (e : event) : M unit := fun w => (Ok tt, add_event e w).

(** [self.clientUpdateHandles] *)
Definition get_handles : M (list handle) := fun w => (Ok (clientUpdateHandles w), w).

Declare Scope monad_scope.
Delimit Scope monad_scope with monad.
Notation "x <- c1 ;; c2" := (bind c1 (fun x => c2))
  (at level 100, c1 at next level, c2 at level 200, right associativity) : monad_scope.
Notation "c1 ;; c2" := (bind c1 (fun _ => c2))
  (at level 100, c2 at level 200, right associativity) : monad_scope.

Local Open Scope monad_scope.

(** [for x in xs: body(x)] *)
Fixpoint for_each {A : Type} (xs : list A) (body : A -> M unit) : M unit :=
  match xs with
  | [] => ret tt
  | x :: rest => body x ;; for_each rest body
  end.

(** [assert cond, msg] *)
Definition py_assert (cond : bool) (msg : string) : M unit :=
  if cond then ret tt else raise (AssertionError msg).

(** [range(a, b)] and [enumerate(xs)] *)
Definition range (a b : Z) : list Z :=
  map (fun i => a + Z.of_nat i) (seq 0 (Z.to_nat (b - a))).

Definition enumerate {A : Type} (xs : list A) : list (nat * A) :=
  zip (seq 0 (length xs)) xs.

(** ** The class [Ads1298Api] *)

Section Driver.

(** [STUB_API]: true when [spidev] or [RPi.GPIO] could not be imported. *)
Variable STUB_API : bool.

(** What [spi.xfer] returns for the bytes sent, given the calls made so far:
    the bytes received, or the exception of a failed transfer. *)
Variable spi_reply : list event -> list Z -> result (list Z).

(** How the callable of client [id] ends on [raw]: it returns ([None]) or
    raises.  A client callable does not call back into the driver. *)
Variable client_outcome : nat -> list Z -> option exn.

(** *** Codec callback *)

Definition default_callback (raw : list Z) : M unit :=
  (if STUB_API then raise (NameError "GPIO") else emit (GpioOutput CE1 true)) ;;
  let samples := replicate NUM_CHANNELS (float_of_Z 0) in
  status <- lift (convert_24b_data (slice raw 0 3) FmtUnsigned) ;;
  let status_word := Z.land status 0xffffff in
  py_assert (Z.shiftr status_word 20 =? 12 (* 0b1100 *)) "Data stream out of sync" ;;
  let loff_stat_p := Z.land (Z.shiftr status_word 12) 0xff in
  let loff_stat_n := Z.land (Z.shiftr status_word 4) 0xff in
  samples <- lift (fill_samples raw (seq 0 NUM_CHANNELS) samples) ;;
  emit (Print (LoffLine loff_stat_p loff_stat_n)) ;;
  emit (Print (SamplesLine samples)).

(** [handle(raw)] *)
Definition call_handle (h : handle) (raw : list Z) : M unit :=
  emit (Call h raw) ;;
  match h with
  | DefaultCallback => default_callback raw
  | Client id =>
      match client_outcome id raw with
      | Some e => raise e
      | None => ret tt
      end
  end.

(** *** SPI interface *)

(** [with self.spi_lock: body]; the lock is [None] before [open_device], and
    [with None] raises ([TypeError] from Python 3.11 on, [AttributeError] on
    [__enter__] before).  One thread of calls never finds the lock taken. *)
Definition with_spi_lock {A : Type} (body : M A) : M A :=
  lock <- get spi_lock ;;
  if (lock : bool) then body
  else raise (TypeError "'NoneType' object does not support the context manager protocol").

(** [self.spi.xfer(tx, self.spi_speed, self.spi_pause)] *)
Definition spi_xfer (tx : list Z) : M (list Z) :=
  fun w => (spi_reply (trace w) tx, add_event (SpiXfer tx spi_speed spi_pause) w).

Definition spi_transmit_byte (byte : Z) : M unit :=
  if STUB_API then ret tt
  else with_spi_lock (_ <- spi_xfer [byte] ;; ret tt).

(** [self.config_registers[reg] = byte] *)
Definition set_register (reg byte : Z) : M unit :=
  fun w => (Ok tt, with_registers (insert reg byte) w).

Definition spi_write_single_reg (reg byte : Z) : M unit :=
  set_register reg byte ;;
  if STUB_API then ret tt
  else with_spi_lock (_ <- spi_xfer [Z.lor reg 0x40; 0x00; byte] ;; ret tt).

Definition spi_write_multiple_reg (start_reg : Z) (byte_array : list Z) : M unit :=
  for_each (enumerate (range start_reg (start_reg + Z.of_nat (length byte_array))))
    (fun '(i, addr) => v <- lift (index byte_array i) ;; set_register addr v) ;;
  if STUB_API then ret tt
  else with_spi_lock
         (_ <- spi_xfer ([Z.lor start_reg 0x40; Z.of_nat (length byte_array) - 1] ++ byte_array) ;;
          ret tt).

Definition spi_read_multiple_bytes (nb_bytes : nat) : M (list Z) :=
  if STUB_API then ret []
  else with_spi_lock (spi_xfer (replicate nb_bytes 0x00)).

Definition spi_read_reg (reg : Z) : M Z :=
  if STUB_API then ret (if reg =? REG_ID then 0x92 else 0x00)
  else with_spi_lock (r <- spi_xfer [Z.lor 0x20 reg; 0x00; 0x00] ;; lift (index r 2)).

(** *** GPIO interface *)

Definition set_pin (pin : Z) (state : bool) : M unit :=
  if STUB_API then ret tt
  else emit (GpioOutput pin state).

(** [self.START_PIN], [self.nRESET_PIN], [self.nPWRDN_PIN]: neither the
    class nor [__init__] defines such an attribute ([START_PIN], [nRESET_PIN]
    and [nPWRDN_PIN] are names of the module), so the lookup raises. *)
Definition self_START_PIN : M Z := raise (AttributeError "START_PIN").
Definition self_nRESET_PIN : M Z := raise (AttributeError "nRESET_PIN").
Definition self_nPWRDN_PIN : M Z := raise (AttributeError "nPWRDN_PIN").

Definition set_start (state : bool) : M unit :=
  pin <- self_START_PIN ;; set_pin pin state.

Definition set_nreset (state : bool) : M unit :=
  pin <- self_nRESET_PIN ;; set_pin pin state.

Definition set_npwrdn (state : bool) : M unit :=
  pin <- self_nPWRDN_PIN ;; set_pin pin state.

Definition toggle_reset : M unit :=
  set_nreset false ;;
  emit (Sleep 200) ;;
  set_nreset true ;;
  emit (Sleep 200).

Definition configure_all_channels (config : Z) : M unit :=
  spi_write_multiple_reg REG_CHnSET_BASE (replicate NUM_CHANNELS config).

Definition drdy_callback (state : Z) : M unit :=
  active <- get stream_active ;;
  if negb active then ret tt
  else
    raw <- spi_read_multiple_bytes (3 + NUM_CHANNELS * 3) ;;
    handles <- get_handles ;;
    for_each handles (fun h => call_handle h raw).

(** *** ADS1298 control *)

Definition set_sampling_rate : M unit :=
  rate <- get sampling_rate ;;
  let temp_reg_value := 0x80 in
  let temp_reg_value :=
    if rate =? 4000 then Z.lor temp_reg_value 3 (* 0b011 *) else temp_reg_value in
  temp_reg_value <-
    (if rate =? 2000 then ret (Z.lor temp_reg_value 4 (* 0b100 *))
     else if rate =? 1000 then ret (Z.lor temp_reg_value 5 (* 0b101 *))
     else if rate =? 500 then ret (Z.lor temp_reg_value 6 (* 0b110 *))
     else raise (ValueError "Invalid sample rate")) ;;
  spi_write_single_reg REG_CONFIG1 temp_reg_value.

Definition reset_ongoing_state : M unit :=
  spi_transmit_byte SDATAC ;;
  spi_write_single_reg REG_CONFIG3 0x48 ;;
  set_sampling_rate ;;
  spi_write_single_reg REG_CONFIG2 0xC0 ;;
  spi_write_single_reg REG_BIAS_SENSP 0x00 ;;
  spi_write_single_reg REG_BIAS_SENSN 0x00 ;;
  configure_all_channels 0x01.

Definition configure_dc_leads_off (enable : bool) : M unit :=
  if enable then
    spi_write_single_reg REG_LOFF 0x93 ;;
    spi_write_single_reg REG_LOFF_SENSP 0xFF ;;
    spi_write_single_reg REG_LOFF_SENSN 0xFF ;;
    spi_write_single_reg REG_LOFF_FLIP 0xFF ;;
    spi_write_single_reg REG_CONFIG4 0x02
  else
    spi_write_single_reg REG_LOFF 0x00 ;;
    spi_write_single_reg REG_LOFF_SENSP 0x00 ;;
    spi_write_single_reg REG_LOFF_SENSN 0x00 ;;
    spi_write_single_reg REG_LOFF_FLIP 0x00 ;;
    spi_write_single_reg REG_CONFIG4 0x00.

Definition setup_bias_drive : M unit :=
  enabled <- get bias_enabled ;;
  if negb enabled then ret tt
  else
    emit (Print (Text "Configuring bias registers")) ;;
    let reg_value := 2 ^ Z.of_nat NUM_CHANNELS - 1 in
    spi_write_single_reg REG_BIAS_SENSP reg_value ;;
    spi_write_single_reg REG_BIAS_SENSN reg_value ;;
    spi_write_single_reg REG_CONFIG3 0xEC.

Definition setup_exg_mode : M unit :=
  emit (Print (Text "Setting up ExG mode")) ;;
  spi_write_single_reg REG_CONFIG2 0x00 ;;
  configure_all_channels 0x60 ;;
  spi_write_single_reg REG_BIAS_SENSP 0xFF ;;
  spi_write_single_reg REG_BIAS_SENSN 0x01 ;;
  spi_write_single_reg REG_WCT1 0xA ;;
  configure_dc_leads_off true ;;
  setup_bias_drive.

Definition setup_test_mode : M unit :=
  emit (Print (Text "Setting up Test Mode")) ;;
  spi_transmit_byte SDATAC ;;
  spi_write_single_reg REG_CONFIG2 0x11 ;;
  spi_write_single_reg REG_CONFIG3 0xC0 ;;
  configure_dc_leads_off false ;;
  configure_all_channels 0x05.

Definition check_device_id : M unit :=
  res <- spi_read_reg REG_ID ;;
  py_assert (Z.land res 0x18 =? 0x10) "Reserved bytes don't match" ;;
  py_assert (Z.land res 0xE0 =? 0x80) "Not ADS129x device family" ;;
  py_assert (Z.land res 0x03 =? 0x02) "Not ADS1298 device".

Definition ads1298_startup_sequence : M unit :=
  set_nreset true ;;
  set_npwrdn true ;;
  emit (Sleep 1000) ;;
  toggle_reset ;;
  reset_ongoing_state ;;
  check_device_id.

(** *** Public methods *)

Definition open_device : M unit :=
  (if STUB_API then
     emit (Print (Text "stubbed mode")) ;;
     set_attr (set_stubThread true) ;;
     emit ThreadStart
   else
     emit (SpiOpen 0 1) ;;
     emit (SpiSetMaxSpeedHz spi_speed) ;;
     emit (SpiSetMode 1 (* 0b01 *)) ;;
     emit GpioSetmodeBCM ;;
     emit (GpioSetupOut START_PIN false) ;;
     emit (GpioSetupOut nRESET_PIN false) ;;
     emit (GpioSetupOut nPWRDN_PIN false) ;;
     emit (GpioSetupOut CE1 true) ;;
     emit (GpioSetupIn DRDY_PIN) ;;
     emit (GpioAddEventDetect DRDY_PIN)) ;;
  set_attr (set_spi_lock true) ;;
  ads1298_startup_sequence.

Definition close_device : M unit :=
  set_attr (set_APIAlive false) ;;
  if STUB_API then
    thread <- get stubThread ;;
    if (thread : bool) then emit ThreadJoin else raise (AttributeError "join")
  else
    emit SpiClose ;;
    emit GpioCleanup.

Definition start_exg_stream : M unit :=
  reset_ongoing_state ;;
  setup_exg_mode ;;
  set_attr (set_stream_active true) ;;
  set_start true ;;
  spi_transmit_byte RDATAC.

Definition start_test_stream : M unit :=
  reset_ongoing_state ;;
  setup_test_mode ;;
  set_attr (set_stream_active true) ;;
  set_start true ;;
  spi_transmit_byte RDATAC.

Definition stop_stream : M unit :=
  spi_transmit_byte SDATAC ;;
  set_attr (set_stream_active false) ;;
  set_attr (set_APIAlive false).

Definition register_client (client_handle : handle) : M unit :=
  fun w => (Ok tt, with_handles (fun hs => hs ++ [client_handle]) w).

(** [configure(sampling_rate=None, bias_enabled=None)]: an argument left out
    is [None]. *)
Definition configure (sampling_rate_arg : option Z) (bias_enabled_arg : option bool) : M unit :=
  active <- get stream_active ;;
  py_assert (negb active) EmptyString ;;
  match sampling_rate_arg with
  | Some v => set_attr (set_sampling_rate_attr v)
  | None => ret tt
  end ;;
  match bias_enabled_arg with
  | Some v => set_attr (set_bias_enabled v)
  | None => ret tt
  end.

(** *** Calls on a driver *)

(** The calls a program or the GPIO library makes on a driver object. *)
Inductive api_call : Type :=
| OpenDevice
| CloseDevice
| StartExgStream
| StartTestStream
| StopStream
| RegisterClient (h : handle)
| Configure (sampling_rate_arg : option Z) (bias_enabled_arg : option bool)
| ReadySignal (state : Z).

Definition run_call (c : api_call) : M unit :=
  match c with
  | OpenDevice => open_device
  | CloseDevice => close_device
  | StartExgStream => start_exg_stream
  | StartTestStream => start_test_stream
  | StopStream => stop_stream
  | RegisterClient h => register_client h
  | Configure s b => configure s b
  | ReadySignal state => drdy_callback state
  end.

(** A sequence of calls; a call that raises leaves the state it reached. *)
Definition run_calls (cs : list api_call) (w : world) : world :=
  fold_left (fun w c => snd (run_call c w)) cs w.

Definition starts_stream (c : api_call) : bool :=
  match c with
  | StartExgStream | StartTestStream => true
  | _ => false
  end.

(** The client handles entered by a sequence of events, with their frames. *)
Definition dispatched (evs : list event) : list (handle * list Z) :=
  omap (fun e => match e with Call h raw => Some (h, raw) | _ => None end) evs.

(** The byte sequences sent by the SPI transfers of a sequence of events. *)
Definition transfers (evs : list event) : list (list Z) :=
  omap (fun e => match e with SpiXfer tx _ _ => Some tx | _ => None end) evs.

(** *** Auxiliary definitions of the statements *)

(** What a register write does once the image holds [image]: nothing more in
    stub mode; otherwise one transfer of [tx] under the lock, whose failure is
    the failure of the write. *)
Definition transmission (tx : list Z) (image : gmap Z Z) (w : world) : result unit * world :=
  let w1 := with_registers (fun _ => image) w in
  if STUB_API then (Ok tt, w1)
  else if spi_lock (self w) then
    (match spi_reply (trace w) tx with Ok _ => Ok tt | Err e => Err e end,
     add_event (SpiXfer tx spi_speed spi_pause) w1)
  else
    (Err (TypeError "'NoneType' object does not support the context manager protocol"), w1).

(** The status word of a frame: its first three bytes, most significant
    first. *)
Definition frame_status (raw : list Z) : Z :=
  be24 (nth 0 raw 0) (nth 1 raw 0) (nth 2 raw 0).

(** The three bytes of channel [i] in a frame. *)
Definition channel_group (raw : list Z) (i : nat) : list Z :=
  slice raw (i * 3 + 3) ((i + 1) * 3 + 3).

(** The 24-bit two's-complement value of a group of three bytes. *)
Definition signed24 (group : list Z) : Z :=
  let u := be24 (nth 0 group 0) (nth 1 group 0) (nth 2 group 0) in
  if nth 0 group 0 >? 127 then u - 2 ^ 24 else u.

(** The sample [default_callback] stores for a group. *)
Definition physical (group : list Z) : float :=
  PrimFloat.mul (float_of_Z (signed24 group)) SCALE_TO_UVOLT.

Definition bytes (raw : list Z) : Prop := Forall (fun b => 0 <= b <= 255) raw.

(** A computation keeps an invariant of the world, whether it returns or
    raises. *)
Definition preserves {A : Type} (I : world -> Prop) (m : M A) : Prop :=
  forall w : world, I w -> I (m w).2.

(** A computation raises in every world. *)
Definition fails {A : Type} (m : M A) : Prop :=
  forall w : world, is_ok (m w).1 = false.

(** A computation returns from every world that satisfies [P], in a world
    that satisfies [P]. *)
Definition runs {A : Type} (P : world -> Prop) (m : M A) : Prop :=
  forall w : world, P w -> is_ok (m w).1 = true /\ P (m w).2.

(** The transfer of the read-continuous command. *)
Definition is_rdatac (e : event) : bool :=
  match e with
  | SpiXfer [byte] _ _ => byte =? RDATAC
  | _ => false
  end.

(** The world [w] has the trace of [w0] followed by events that satisfy [P]. *)
Definition appended (w0 : world) (P : list event -> Prop) (w : world) : Prop :=
  exists evs : list event, trace w = trace w0 ++ evs /\ P evs.

(** Events after which neither a handle has been entered nor a transfer
    made. *)
Definition quiet (evs : list event) : Prop := dispatched evs = [] /\ transfers evs = [].

(** A driver whose transfers can go through (stub mode, or the lock is set),
    with the sampling rate [rate]. *)
Definition ready (rate : Z) (w : world) : Prop :=
  (STUB_API = true \/ spi_lock (self w) = true) /\ sampling_rate (self w) = rate.

(** The events of [open_device] before the start-up sequence. *)
Definition open_device_events : list event :=
  if STUB_API then [Print (Text "stubbed mode"); ThreadStart]
  else [SpiOpen 0 1; SpiSetMaxSpeedHz spi_speed; SpiSetMode 1; GpioSetmodeBCM;
        GpioSetupOut START_PIN false; GpioSetupOut nRESET_PIN false;
        GpioSetupOut nPWRDN_PIN false; GpioSetupOut CE1 true;
        GpioSetupIn DRDY_PIN; GpioAddEventDetect DRDY_PIN].

(** *** Sample environments and worlds *)

(** A bus whose transfers return the bytes sent. *)
Definition loopback_bus : list event -> list Z -> result (list Z) :=
  fun _ tx => Ok tx.

(** A bus whose transfers return a frame in sync: 0xC0, then zeros. *)
Definition sync_bus : list event -> list Z -> result (list Z) :=
  fun _ tx => Ok (0xC0 :: replicate (length tx - 1) 0x00).

(** Client callables that return. *)
Definition returning_clients : nat -> list Z -> option exn := fun _ _ => None.

(** A frame of 27 zero bytes, and frames in sync of 27 and of 28 bytes. *)
Definition zero_frame : list Z := replicate 27 0x00.
Definition sync_frame : list Z := 0xC0 :: replicate 26 0x00.
Definition long_frame : list Z := 0xC0 :: replicate 27 0x00.

(** A driver with the lock set and the stream marked active, as [open_device]
    and a start method leave them (see [open_then_start_marks_stream_active]),
    with its handles; the register image and the trace start empty. *)
Definition streaming_world (handles : list handle) : world :=
  {| self := set_stream_active true (set_spi_lock true new_api);
     clientUpdateHandles := handles; config_registers := ∅; trace := [] |}.

(** A new driver configured with [configure(sampling_rate=rate)]. *)
Definition world_with_rate (rate : Z) : world :=
  (configure (Some rate) None new_world).2.

(** *** Kinds of calls *)

Definition configures (c : api_call) : bool :=
  match c with Configure _ _ => true | _ => false end.

Definition stops_stream (c : api_call) : bool :=
  match c with StopStream => true | _ => false end.

Definition opens (c : api_call) : bool :=
  match c with OpenDevice => true | _ => false end.

(** *** Register writes in sequence *)

(** The register image after the writes [ws], made in the order of the list. *)
Definition put (regs : gmap Z Z) (ws : list (Z * Z)) : gmap Z Z :=
  foldl (fun m p => <[p.1 := p.2]> m) regs ws.

(** The value [set_sampling_rate] writes for the rates 2000, 1000 and 500. *)
Definition rate_code (rate : Z) : Z :=
  if rate =? 2000 then 0x84 else if rate =? 1000 then 0x85 else 0x86.

(** A driver whose transfers can go through, with the sampling rate [rate]
    and the bias flag [bias]. *)
Definition settled (rate : Z) (bias : bool) (w : world) : Prop :=
  ready rate w /\ bias_enabled (self w) = bias.

(** From a settled driver the computation returns, having made the register
    writes [ws] and, outside stub mode, the transfers [txs], and nothing else
    but printing. *)
Definition performs {A : Type} (rate : Z) (bias : bool) (m : M A)
    (ws : list (Z * Z)) (txs : list (list Z)) : Prop :=
  forall w : world,
    settled rate bias w ->
    exists (a : A) (w' : world) (evs : list event),
      m w = (Ok a, w') /\
      settled rate bias w' /\
      self w' = self w /\
      clientUpdateHandles w' = clientUpdateHandles w /\
      config_registers w' = put (config_registers w) ws /\
      trace w' = trace w ++ evs /\
      transfers evs = (if STUB_API then [] else txs) /\
      dispatched evs = [].

(** *** The register map and the validation run *)

(** The addresses the driver writes: CONFIG1 (0x01) to LOFF_FLIP (0x11),
    CONFIG4 (0x17) and WCT1 (0x18). *)
Definition writable (addr : Z) : Prop :=
  0x01 <= addr <= 0x11 \/ addr = 0x17 \/ addr = 0x18.

(** Every entry of the register image is a byte at a written address. *)
Definition image_in_map (w : world) : Prop :=
  forall addr v : Z,
    config_registers w !! addr = Some v -> writable addr /\ 0 <= v <= 255.

(** [_test(use_test_signal)]: [ads = Ads1298Api()] makes a new object, whose
    attributes are the defaults of the class; the calls that follow are made
    on it. *)
Definition _test (use_test_signal : bool) : M unit :=
  emit (Print (Text "Starting validation sequence")) ;;
  set_attr (fun _ => new_api) ;;
  open_device ;;
  register_client DefaultCallback ;;
  configure (Some 500) None ;;
  emit (Print (Text "ADS1298 API test stream starting")) ;;
  (if use_test_signal then start_test_stream else start_exg_stream) ;;
  emit (Sleep 1000) ;;
  emit (Print (Text "ADS1298 API test stream stopping")) ;;
  stop_stream ;;
  close_device ;;
  emit (Sleep 1000) ;;
  emit (Print (Text "Test Over")).

(** A bus whose transfers fail. *)
Definition failing_bus : list event -> list Z -> result (list Z) :=
  fun _ _ => Err OSError.

(** A bus whose transfers return the identity 0x92 as third byte. *)
Definition id_bus : list event -> list Z -> result (list Z) :=
  fun _ _ => Ok [0x00; 0x00; 0x92].

(** A frame in sync with lead-off flags set. *)
Definition flag_frame : list Z := 0xC1 :: 0x23 :: 0x45 :: replicate 24 0x00.

(** ** Facts about the codec *)

Lemma is_byte_spec (b : Z) : is_byte b = true <-> 0 <= b <= 255.
Proof. unfold is_byte. rewrite andb_true_iff, !Z.leb_le. tauto. Qed.

Lemma testbit7_byte (b : Z) : 0 <= b <= 255 -> Z.testbit b 7 = (b >? 127).
Proof.
  intros Hb. rewrite Z.testbit_odd, Z.shiftr_div_pow2 by lia.
  change (2 ^ 7) with 128.
  destruct (Z.gtb_spec b 127) as [Hgt | Hle].
  - replace (b / 128) with 1; [reflexivity|].
    apply Z.div_unique with (r := b - 128); lia.
  - rewrite Z.div_small by lia. reflexivity.
Qed.

Lemma convert_24b_data_bytes (b0 b1 b2 : Z) (f : fmt) :
  0 <= b0 <= 255 -> 0 <= b1 <= 255 -> 0 <= b2 <= 255 ->
  convert_24b_data [b0; b1; b2] f =
    Ok (match f with
        | FmtUnsigned => (if b0 >? 127 then 255 else 0) * 2 ^ 24 + be24 b0 b1 b2
        | FmtSigned => if b0 >? 127 then be24 b0 b1 b2 - 2 ^ 24 else be24 b0 b1 b2
        end).
Proof.
  intros H0 H1 H2. unfold convert_24b_data, struct_pack_3B, be24. cbn.
  apply is_byte_spec in H0 as E0. apply is_byte_spec in H1 as E1.
  apply is_byte_spec in H2 as E2. rewrite E0, E1, E2. cbn.
  destruct f; destruct (Z.gtb_spec b0 127); f_equal; try lia.
  - destruct (Z.ltb_spec (((255 * 256 + b0) * 256 + b1) * 256 + b2) (2 ^ 31)); lia.
  - destruct (Z.ltb_spec (((0 * 256 + b0) * 256 + b1) * 256 + b2) (2 ^ 31)); lia.
Qed.

Lemma convert_24b_data_bad_length (unpacked : list Z) (f : fmt) :
  length unpacked <> 3%nat ->
  convert_24b_data unpacked f = Err (ValueError "Input should be 3 bytes long.").
Proof.
  intros H. unfold convert_24b_data.
  destruct (Nat.eqb_spec (length unpacked) 3); [contradiction | reflexivity].
Qed.

(** C3. [convert_24b_data] with its default format [">i"] reads three bytes
    as a 24-bit two's-complement number: the result is congruent to the
    big-endian value of the bytes modulo 2^24 and its sign is bit 7 of the
    first byte, so it lies in [0, 2^23-1] when that bit is clear and in
    [-2^23, -1] when it is set; [0x00,0x00,0x01] gives 1 and
    [0xFF,0xFF,0xFF] gives -1.  An input whose length is not 3 raises the
    [ValueError] of the length check. *)
Theorem convert_24b_data_sign_extends :
  (forall b0 b1 b2 : Z,
      0 <= b0 <= 255 -> 0 <= b1 <= 255 -> 0 <= b2 <= 255 ->
      exists v : Z,
        convert_24b_data [b0; b1; b2] FmtSigned = Ok v /\
        v mod 2 ^ 24 = be24 b0 b1 b2 /\
        (if Z.testbit b0 7 then - 2 ^ 23 <= v <= -1 else 0 <= v <= 2 ^ 23 - 1)) /\
  convert_24b_data [0x00; 0x00; 0x01] FmtSigned = Ok 1 /\
  convert_24b_data [0xFF; 0xFF; 0xFF] FmtSigned = Ok (-1) /\
  (forall unpacked : list Z,
      length unpacked <> 3%nat ->
      convert_24b_data unpacked FmtSigned = Err (ValueError "Input should be 3 bytes long.")).
Proof.
  split; [| split; [reflexivity | split; [reflexivity |]]].
  - intros b0 b1 b2 H0 H1 H2.
    rewrite (convert_24b_data_bytes b0 b1 b2 FmtSigned H0 H1 H2).
    rewrite (testbit7_byte b0 H0).
    assert (Hr : 0 <= be24 b0 b1 b2 < 2 ^ 24) by (unfold be24; lia).
    destruct (Z.gtb_spec b0 127) as [Hgt | Hle].
    + exists (be24 b0 b1 b2 - 2 ^ 24). repeat split.
      * replace (be24 b0 b1 b2 - 2 ^ 24) with (be24 b0 b1 b2 + (-1) * 2 ^ 24) by ring.
        rewrite Z.mod_add by lia. apply Z.mod_small. exact Hr.
      * unfold be24. lia.
      * unfold be24. lia.
    + exists (be24 b0 b1 b2). repeat split.
      * apply Z.mod_small. exact Hr.
      * unfold be24. lia.
      * unfold be24. lia.
  - intros unpacked Hlen. apply convert_24b_data_bad_length. exact Hlen.
Qed.

(** ** Sampling rate and configuration *)

(** The register value [set_sampling_rate] writes for the rates its second
    conditional accepts. *)
Lemma set_sampling_rate_cases (w : world) :
  set_sampling_rate w =
    let rate := sampling_rate (self w) in
    if rate =? 2000 then spi_write_single_reg REG_CONFIG1 0x84 w
    else if rate =? 1000 then spi_write_single_reg REG_CONFIG1 0x85 w
    else if rate =? 500 then spi_write_single_reg REG_CONFIG1 0x86 w
    else (Err (ValueError "Invalid sample rate"), w).
Proof.
  unfold set_sampling_rate, bind, get. cbn.
  destruct (Z.eqb_spec (sampling_rate (self w)) 4000) as [E | _].
  - rewrite E. reflexivity.
  - destruct (sampling_rate (self w) =? 2000); [reflexivity |].
    destruct (sampling_rate (self w) =? 1000); [reflexivity |].
    destruct (sampling_rate (self w) =? 500); reflexivity.
Qed.

(** C1. At the sampling rate 4000 the first conditional of
    [set_sampling_rate] computes 0x83, and the [else] of the second one then
    raises [ValueError]: CONFIG1 is not written, neither in the register
    image nor on the bus. *)
Theorem set_sampling_rate_4000_raises (w : world) :
  sampling_rate (self w) = 4000 ->
  set_sampling_rate w = (Err (ValueError "Invalid sample rate"), w).
Proof.
  intros H. rewrite set_sampling_rate_cases. cbn. rewrite H. reflexivity.
Qed.

(** C2. [configure] on an active stream fails on its assertion and leaves
    the world as it was; on an inactive one it returns and assigns exactly
    the attributes whose argument is given. *)
Theorem configure_guards_active_stream
    (sampling_rate_arg : option Z) (bias_enabled_arg : option bool) (w : world) :
  configure sampling_rate_arg bias_enabled_arg w =
    if stream_active (self w)
    then (Err (AssertionError EmptyString), w)
    else (Ok tt,
          {| self :=
               {| spi_lock := spi_lock (self w);
                  stubThread := stubThread (self w);
                  APIAlive := APIAlive (self w);
                  nb_channels := nb_channels (self w);
                  sampling_rate := default (sampling_rate (self w)) sampling_rate_arg;
                  bias_enabled := default (bias_enabled (self w)) bias_enabled_arg;
                  stream_active := false |};
             clientUpdateHandles := clientUpdateHandles w;
             config_registers := config_registers w;
             trace := trace w |}).
Proof.
  destruct w as [[l t a n r b s] hs regs tr].
  unfold configure, bind, get, py_assert. cbn.
  destruct s; cbn; [reflexivity |].
  destruct sampling_rate_arg, bias_enabled_arg; reflexivity.
Qed.

(** ** Register writes *)

Lemma range_from (a : Z) (n : nat) :
  range a (a + Z.of_nat n) = map (fun i => a + Z.of_nat i) (seq 0 n).
Proof.
  unfold range. replace (a + Z.of_nat n - a) with (Z.of_nat n) by lia.
  rewrite Nat2Z.id. reflexivity.
Qed.

(** The loop of [spi_write_multiple_reg], from index [k] on. *)
Lemma write_loop (byte_array : list Z) (start_reg : Z) (j : nat) :
  forall (k : nat) (w : world),
    (k + j = length byte_array)%nat ->
    exists image : gmap Z Z,
      for_each (zip (seq k j) (map (fun i => start_reg + Z.of_nat i) (seq k j)))
        (fun '(i, addr) => v <- lift (index byte_array i) ;; set_register addr v) w
      = (Ok tt, with_registers (fun _ => image) w) /\
      forall addr : Z,
        image !! addr =
          if decide (start_reg + Z.of_nat k <= addr < start_reg + Z.of_nat (k + j))
          then byte_array !! Z.to_nat (addr - start_reg)
          else config_registers w !! addr.
Proof.
  induction j as [| j IH]; intros k w Hlen.
  - exists (config_registers w). split.
    + destruct w. reflexivity.
    + intros addr. case_decide; [lia | reflexivity].
  - destruct (lookup_lt_is_Some_2 byte_array k ltac:(lia)) as [v Hv].
    destruct (IH (S k) (with_registers (insert (start_reg + Z.of_nat k) v) w) ltac:(lia))
      as [image [Hrun Himage]].
    exists image. split.
    + cbn [seq map zip zip_with for_each]. unfold bind at 1. unfold bind at 1.
      unfold lift, index. rewrite Hv. unfold set_register at 1.
      exact Hrun.
    + intros addr. rewrite Himage. cbn [config_registers with_registers].
      destruct (decide (start_reg + Z.of_nat (S k) <= addr
                        < start_reg + Z.of_nat (S k + j))) as [Hin | Hout].
      * rewrite decide_True by lia. reflexivity.
      * destruct (decide (addr = start_reg + Z.of_nat k)) as [-> | Hne].
        -- rewrite decide_True by lia. rewrite lookup_insert_eq.
           replace (start_reg + Z.of_nat k - start_reg) with (Z.of_nat k) by lia.
           rewrite Nat2Z.id. symmetry. exact Hv.
        -- rewrite decide_False by lia. rewrite lookup_insert_ne by congruence.
           reflexivity.
Qed.

Lemma transmission_image (tx : list Z) (image : gmap Z Z) (w : world) :
  config_registers (transmission tx image w).2 = image.
Proof.
  unfold transmission. destruct STUB_API; [reflexivity |].
  destruct (spi_lock (self w)); reflexivity.
Qed.

Lemma spi_write_single_reg_eq (reg byte : Z) (w : world) :
  spi_write_single_reg reg byte w =
    transmission [Z.lor reg 0x40; 0x00; byte] (<[reg := byte]> (config_registers w)) w.
Proof.
  destruct w as [a hs regs tr].
  unfold spi_write_single_reg, transmission, bind at 1, set_register.
  destruct STUB_API; [reflexivity |].
  unfold with_spi_lock, bind, get, spi_xfer. cbn.
  destruct (spi_lock a); cbn; [| reflexivity].
  destruct (spi_reply tr _); reflexivity.
Qed.

Lemma spi_write_multiple_reg_eq (start_reg : Z) (byte_array : list Z) (w : world) :
  exists image : gmap Z Z,
    (forall addr : Z,
        image !! addr =
          if decide (start_reg <= addr < start_reg + Z.of_nat (length byte_array))
          then byte_array !! Z.to_nat (addr - start_reg)
          else config_registers w !! addr) /\
    spi_write_multiple_reg start_reg byte_array w =
      transmission ([Z.lor start_reg 0x40; Z.of_nat (length byte_array) - 1] ++ byte_array)
        image w.
Proof.
  destruct (write_loop byte_array start_reg (length byte_array) 0 w eq_refl)
    as [image [Hrun Himage]].
  exists image. split.
  - intros addr. rewrite Himage. rewrite Z.add_0_r. reflexivity.
  - unfold spi_write_multiple_reg, bind at 1, enumerate.
    rewrite range_from, length_map, length_seq, Hrun.
    destruct w as [a hs regs tr].
    unfold transmission. destruct STUB_API; [reflexivity |].
    unfold with_spi_lock, bind, get, spi_xfer. cbn.
    destruct (spi_lock a); cbn; [| reflexivity].
    destruct (spi_reply tr _); reflexivity.
Qed.

(** C7. A register write stores the value in [config_registers] first and
    transmits afterwards, so the image is updated whatever the transmission
    does (none in stub mode, a reply, an exception of the transfer, or no
    lock).  [spi_write_single_reg] records [byte] at [reg] and sends
    [reg | 0x40, 0x00, byte]; [spi_write_multiple_reg] records the values at
    [start_reg], [start_reg + 1], ... and sends
    [start_reg | 0x40, len(byte_array) - 1] followed by the values. *)
Theorem register_writes_update_image_first :
  (forall (reg byte : Z) (w : world),
      let image := <[reg := byte]> (config_registers w) in
      spi_write_single_reg reg byte w = transmission [Z.lor reg 0x40; 0x00; byte] image w /\
      config_registers (spi_write_single_reg reg byte w).2 = image) /\
  (forall (start_reg : Z) (byte_array : list Z) (w : world),
      exists image : gmap Z Z,
        (forall addr : Z,
            image !! addr =
              if decide (start_reg <= addr < start_reg + Z.of_nat (length byte_array))
              then byte_array !! Z.to_nat (addr - start_reg)
              else config_registers w !! addr) /\
        spi_write_multiple_reg start_reg byte_array w =
          transmission
            (Z.lor start_reg 0x40 :: Z.of_nat (length byte_array) - 1 :: byte_array)
            image w /\
        config_registers (spi_write_multiple_reg start_reg byte_array w).2 = image).
Proof.
  split.
  - intros reg byte w image. rewrite spi_write_single_reg_eq.
    split; [reflexivity | apply transmission_image].
  - intros start_reg byte_array w.
    destruct (spi_write_multiple_reg_eq start_reg byte_array w) as [image [Himage Hrun]].
    exists image. rewrite Hrun.
    repeat split; [exact Himage | apply transmission_image].
Qed.

(** ** Frames: [default_callback] *)

Lemma convert_24b_data_error (unpacked : list Z) (f : fmt) (e : exn) :
  convert_24b_data unpacked f = Err e ->
  e = ValueError "Input should be 3 bytes long." \/ e = StructError.
Proof.
  unfold convert_24b_data.
  destruct unpacked as [| a [| b [| c [| d rest]]]]; cbn;
    try (intros [= <-]; left; reflexivity).
  destruct (is_byte a && (is_byte b && (is_byte c && true))); cbn.
  - discriminate.
  - intros [= <-]. right. reflexivity.
Qed.

Lemma fill_samples_error (raw : list Z) (indices : list nat) :
  forall (samples : list float) (e : exn),
    fill_samples raw indices samples = Err e ->
    e = ValueError "Input should be 3 bytes long." \/ e = StructError.
Proof.
  induction indices as [| i rest IH]; intros samples e; cbn.
  - discriminate.
  - unfold convert_24b_to_float.
    destruct (convert_24b_data _ FmtSigned) as [v | e'] eqn:E; cbn.
    + apply IH.
    + intros [= <-]. exact (convert_24b_data_error _ _ _ E).
Qed.

Lemma land_low24 (p u : Z) : 0 <= u < 2 ^ 24 -> Z.land (p * 2 ^ 24 + u) 0xffffff = u.
Proof.
  intros Hu. change 0xffffff with (Z.ones 24).
  rewrite Z.land_ones by lia.
  rewrite Z.add_comm, Z.mod_add by lia. apply Z.mod_small. exact Hu.
Qed.

Lemma slice_group (raw : list Z) (k : nat) :
  bytes raw -> (k * 3 + 6 <= length raw)%nat ->
  exists a b c : Z,
    channel_group raw k = [a; b; c] /\
    0 <= a <= 255 /\ 0 <= b <= 255 /\ 0 <= c <= 255.
Proof.
  intros Hb Hlen. unfold channel_group, slice.
  replace ((k + 1) * 3 + 3 - (k * 3 + 3))%nat with 3%nat by lia.
  assert (Hd : (3 <= length (drop (k * 3 + 3) raw))%nat)
    by (rewrite length_drop; lia).
  assert (Hf : bytes (drop (k * 3 + 3) raw)) by (apply Forall_drop; exact Hb).
  destruct (drop (k * 3 + 3) raw) as [| a [| b [| c rest]]]; cbn in Hd; try lia.
  exists a, b, c. cbn.
  inversion Hf as [| ? ? Ha Hf1]; subst.
  inversion Hf1 as [| ? ? Hb' Hf2]; subst.
  inversion Hf2 as [| ? ? Hc Hf3]; subst.
  auto.
Qed.

Lemma convert_24b_to_float_group (raw : list Z) (k : nat) :
  bytes raw -> (k * 3 + 6 <= length raw)%nat ->
  convert_24b_to_float (slice raw (k * 3 + 3) ((k + 1) * 3 + 3)) =
    Ok (physical (channel_group raw k)).
Proof.
  intros Hb Hlen.
  destruct (slice_group raw k Hb Hlen) as (a & b & c & Hg & Ha & Hb' & Hc).
  unfold physical, signed24. fold (channel_group raw k). rewrite Hg.
  unfold convert_24b_to_float.
  rewrite (convert_24b_data_bytes a b c FmtSigned Ha Hb' Hc). cbn.
  destruct (a >? 127); reflexivity.
Qed.

Lemma convert_24b_to_float_short (raw : list Z) (k : nat) :
  (length raw < k * 3 + 6)%nat ->
  convert_24b_to_float (slice raw (k * 3 + 3) ((k + 1) * 3 + 3)) =
    Err (ValueError "Input should be 3 bytes long.").
Proof.
  intros Hlen. unfold convert_24b_to_float.
  rewrite convert_24b_data_bad_length; [reflexivity |].
  unfold slice. rewrite length_take, length_drop. lia.
Qed.

(** The loop over the channels of a frame that holds them all. *)
Lemma fill_samples_ok (raw : list Z) (n : nat) :
  bytes raw ->
  forall (k : nat) (samples : list float),
    ((k + n) * 3 + 3 <= length raw)%nat ->
    (k + n <= length samples)%nat ->
    fill_samples raw (seq k n) samples =
      Ok (take k samples ++ map (fun i => physical (channel_group raw i)) (seq k n)
            ++ drop (k + n) samples).
Proof.
  intros Hb. induction n as [| n IH]; intros k samples Hraw Hlen.
  - cbn. rewrite Nat.add_0_r, take_drop. reflexivity.
  - cbn [seq fill_samples bindR].
    rewrite convert_24b_to_float_group by (try exact Hb; lia). cbn [bindR].
    rewrite IH by (rewrite ?length_insert; lia).
    rewrite (take_S_r _ k (physical (channel_group raw k)))
      by (apply list_lookup_insert_eq; lia).
    rewrite take_insert_ge by lia.
    rewrite drop_insert_lt by lia.
    rewrite <- app_assoc.
    replace (S k + n)%nat with (k + S n)%nat by lia. reflexivity.
Qed.

(** The loop over the channels of a frame that ends before the last one. *)
Lemma fill_samples_short (raw : list Z) (n : nat) :
  bytes raw ->
  forall (k : nat) (samples : list float),
    (k * 3 + 3 <= length raw < (k + n) * 3 + 3)%nat ->
    fill_samples raw (seq k n) samples = Err (ValueError "Input should be 3 bytes long.").
Proof.
  intros Hb. induction n as [| n IH]; intros k samples Hlen.
  - lia.
  - cbn [seq fill_samples].
    destruct (le_lt_dec (k * 3 + 6) (length raw)) as [Hfull | Hshort].
    + rewrite convert_24b_to_float_group by (try exact Hb; lia). cbn [bindR].
      apply IH. lia.
    + rewrite convert_24b_to_float_short by lia. reflexivity.
Qed.

Lemma default_callback_stub (raw : list Z) (w : world) :
  STUB_API = true -> default_callback raw w = (Err (NameError "GPIO"), w).
Proof. intros Hs. unfold default_callback. rewrite Hs. reflexivity. Qed.

Lemma default_callback_no_status (raw : list Z) (w : world) :
  STUB_API = false -> (length raw < 3)%nat ->
  default_callback raw w =
    (Err (ValueError "Input should be 3 bytes long."), add_event (GpioOutput CE1 true) w).
Proof.
  intros Hs Hlen. unfold default_callback. rewrite Hs.
  unfold bind at 1, emit at 1. unfold bind at 1, lift at 1.
  rewrite convert_24b_data_bad_length; [reflexivity |].
  unfold slice. rewrite length_take, length_drop. lia.
Qed.

(** [default_callback] on real hardware, for a frame that has a status word. *)
Lemma default_callback_hardware (raw : list Z) (w : world) :
  STUB_API = false -> bytes raw -> (3 <= length raw)%nat ->
  default_callback raw w =
    let w1 := add_event (GpioOutput CE1 true) w in
    let status_word := frame_status raw in
    if Z.shiftr status_word 20 =? 12 then
      match fill_samples raw (seq 0 NUM_CHANNELS) (replicate NUM_CHANNELS (float_of_Z 0)) with
      | Ok samples =>
          (Ok tt,
           add_event (Print (SamplesLine samples))
             (add_event
                (Print (LoffLine (Z.land (Z.shiftr status_word 12) 0xff)
                                 (Z.land (Z.shiftr status_word 4) 0xff)))
                w1))
      | Err e => (Err e, w1)
      end
    else (Err (AssertionError "Data stream out of sync"), w1).
Proof.
  intros Hs Hb Hlen.
  destruct raw as [| b0 [| b1 [| b2 rest]]]; cbn in Hlen; try lia.
  inversion Hb as [| ? ? H0 Hb1]; subst.
  inversion Hb1 as [| ? ? H1 Hb2]; subst.
  inversion Hb2 as [| ? ? H2 Hb3]; subst.
  unfold default_callback. rewrite Hs.
  unfold bind at 1, emit at 1. unfold bind at 1, lift at 1.
  change (slice (b0 :: b1 :: b2 :: rest) 0 3) with [b0; b1; b2].
  rewrite (convert_24b_data_bytes b0 b1 b2 FmtUnsigned H0 H1 H2).
  rewrite land_low24 by (unfold be24; lia).
  change (frame_status (b0 :: b1 :: b2 :: rest)) with (be24 b0 b1 b2).
  cbv zeta.
  unfold bind at 1, py_assert.
  destruct (Z.shiftr (be24 b0 b1 b2) 20 =? 12); [| reflexivity].
  unfold ret at 1. unfold bind at 1, lift at 1.
  destruct (fill_samples _ _ _); reflexivity.
Qed.

(** C4. On real hardware [default_callback] checks the top four bits of the
    status word of the frame with an assertion.  When they are 1100b the
    check passes and decoding goes on; for every other pattern the call
    raises [AssertionError] ("Data stream out of sync") right after setting
    CE1 high: no flags or samples are produced. *)
Theorem default_callback_sync_assertion (raw : list Z) (w : world) :
  STUB_API = false -> bytes raw -> (3 <= length raw)%nat ->
  (Z.shiftr (frame_status raw) 20 = 12 ->
   fst (default_callback raw w) <> Err (AssertionError "Data stream out of sync")) /\
  (Z.shiftr (frame_status raw) 20 <> 12 ->
   default_callback raw w =
     (Err (AssertionError "Data stream out of sync"), add_event (GpioOutput CE1 true) w)).
Proof.
  intros Hs Hb Hlen. rewrite (default_callback_hardware raw w Hs Hb Hlen). cbv zeta.
  split; intros Hsync.
  - rewrite Hsync. cbn [Z.eqb Pos.eqb].
    destruct (fill_samples _ _ _) as [samples | e] eqn:E; cbn; [discriminate |].
    destruct (fill_samples_error _ _ _ _ E) as [-> | ->]; discriminate.
  - destruct (Z.eqb_spec (Z.shiftr (frame_status raw) 20) 12); [contradiction | reflexivity].
Qed.

(** C5. [default_callback] decodes [NUM_CHANNELS] = 8 channels and does not
    compare the length of the frame with 3 + 3 * 8.  On real hardware and
    for a frame in sync: with 27 bytes or more it prints the lead-off flags
    and the eight samples, which are the physical values of the first eight
    3-byte groups after the status word, in their order (bytes after the
    27th are not read); with fewer than 27 bytes it raises the [ValueError]
    of [convert_24b_data] on the first group that is cut short. *)
Theorem default_callback_frame_length (raw : list Z) (w : world) :
  STUB_API = false -> bytes raw -> Z.shiftr (frame_status raw) 20 = 12 ->
  ((3 + 3 * NUM_CHANNELS <= length raw)%nat ->
   default_callback raw w =
     (Ok tt,
      add_event
        (Print (SamplesLine
                  (map (fun i => physical (channel_group raw i)) (seq 0 NUM_CHANNELS))))
        (add_event
           (Print (LoffLine (Z.land (Z.shiftr (frame_status raw) 12) 0xff)
                            (Z.land (Z.shiftr (frame_status raw) 4) 0xff)))
           (add_event (GpioOutput CE1 true) w)))) /\
  ((length raw < 3 + 3 * NUM_CHANNELS)%nat ->
   fst (default_callback raw w) = Err (ValueError "Input should be 3 bytes long.")).
Proof.
  intros Hs Hb Hsync. split; intros Hlen.
  - rewrite (default_callback_hardware raw w Hs Hb) by (unfold NUM_CHANNELS in Hlen; lia).
    cbv zeta. rewrite Hsync. cbn [Z.eqb Pos.eqb].
    rewrite (fill_samples_ok raw NUM_CHANNELS Hb 0)
      by (rewrite ?length_replicate; unfold NUM_CHANNELS in *; lia).
    rewrite take_0, drop_replicate, Nat.sub_diag, app_nil_r. reflexivity.
  - destruct (le_lt_dec 3 (length raw)) as [Hst | Hno].
    + rewrite (default_callback_hardware raw w Hs Hb Hst).
      cbv zeta. rewrite Hsync. cbn [Z.eqb Pos.eqb].
      rewrite (fill_samples_short raw NUM_CHANNELS Hb 0)
        by (unfold NUM_CHANNELS in *; lia).
      reflexivity.
    + rewrite (default_callback_no_status raw w Hs Hno). reflexivity.
Qed.

(** ** Invariants of the methods *)

Lemma preserves_ret {A : Type} (I : world -> Prop) (a : A) : preserves I (ret a).
Proof. intros w H. exact H. Qed.

Lemma preserves_raise {A : Type} (I : world -> Prop) (e : exn) : preserves I (@raise A e).
Proof. intros w H. exact H. Qed.

Lemma preserves_lift {A : Type} (I : world -> Prop) (r : result A) : preserves I (lift r).
Proof. intros w H. exact H. Qed.

Lemma preserves_get {A : Type} (I : world -> Prop) (f : Ads1298Api -> A) :
  preserves I (get f).
Proof. intros w H. exact H. Qed.

Lemma preserves_get_handles (I : world -> Prop) : preserves I get_handles.
Proof. intros w H. exact H. Qed.

Lemma preserves_py_assert (I : world -> Prop) (c : bool) (msg : string) :
  preserves I (py_assert c msg).
Proof. intros w H. destruct c; exact H. Qed.

Lemma preserves_bind {A B : Type} (I : world -> Prop) (m : M A) (k : A -> M B) :
  preserves I m -> (forall a, preserves I (k a)) -> preserves I (bind m k).
Proof.
  intros Hm Hk w H. unfold bind. specialize (Hm w H).
  destruct (m w) as [[a | e] w']; cbn in *.
  - apply Hk. exact Hm.
  - exact Hm.
Qed.

Lemma preserves_if {A : Type} (I : world -> Prop) (c : bool) (m1 m2 : M A) :
  preserves I m1 -> preserves I m2 -> preserves I (if c then m1 else m2).
Proof. destruct c; auto. Qed.

Lemma preserves_for_each {A : Type} (I : world -> Prop) (xs : list A) (body : A -> M unit) :
  (forall x, preserves I (body x)) -> preserves I (for_each xs body).
Proof.
  intros Hb. induction xs as [| x rest IH]; cbn.
  - apply preserves_ret.
  - apply preserves_bind; [apply Hb | intros _; exact IH].
Qed.

Lemma preserves_emit (I : world -> Prop) (e : event) :
  (forall w, I w -> I (add_event e w)) -> preserves I (emit e).
Proof. intros H w Hw. apply H. exact Hw. Qed.

Lemma preserves_set_attr (I : world -> Prop) (f : Ads1298Api -> Ads1298Api) :
  (forall w, I w -> I (with_self f w)) -> preserves I (set_attr f).
Proof. intros H w Hw. apply H. exact Hw. Qed.

Lemma preserves_set_register (I : world -> Prop) (reg byte : Z) :
  (forall w, I w -> I (with_registers (insert reg byte) w)) ->
  preserves I (set_register reg byte).
Proof. intros H w Hw. apply H. exact Hw. Qed.

Lemma preserves_spi_xfer (I : world -> Prop) (tx : list Z) :
  (forall w, I w -> I (add_event (SpiXfer tx spi_speed spi_pause) w)) ->
  preserves I (spi_xfer tx).
Proof. intros H w Hw. apply H. exact Hw. Qed.

Lemma preserves_register_client (I : world -> Prop) (h : handle) :
  (forall w, I w -> I (with_handles (fun hs => hs ++ [h]) w)) ->
  preserves I (register_client h).
Proof. intros H w Hw. apply H. exact Hw. Qed.

Lemma preserves_bind_fails {A B : Type} (I : world -> Prop) (m : M A) (k : A -> M B) :
  fails m -> preserves I m -> preserves I (bind m k).
Proof.
  intros Hf Hm w H. unfold bind. specialize (Hm w H). specialize (Hf w).
  destruct (m w) as [[a | e] w']; cbn in *; [discriminate | exact Hm].
Qed.

Lemma fails_bind_l {A B : Type} (m : M A) (k : A -> M B) : fails m -> fails (bind m k).
Proof.
  intros Hf w. unfold bind. specialize (Hf w).
  destruct (m w) as [[a | e] w']; cbn in *; [discriminate | reflexivity].
Qed.

Lemma fails_bind_r {A B : Type} (m : M A) (k : A -> M B) :
  (forall a, fails (k a)) -> fails (bind m k).
Proof.
  intros Hf w. unfold bind.
  destruct (m w) as [[a | e] w']; cbn; [apply Hf | reflexivity].
Qed.

Lemma fails_set_start (state : bool) : fails (set_start state).
Proof. intros w. reflexivity. Qed.

Lemma fails_set_nreset (state : bool) : fails (set_nreset state).
Proof. intros w. reflexivity. Qed.

(** One step of a proof that a method keeps an invariant: the structure of
    the computation, then the definition of the method. *)
Ltac frame_step :=
  lazymatch goal with
  | |- preserves _ (bind _ _) => apply preserves_bind; [| intros ?]
  | |- preserves _ (ret _) => apply preserves_ret
  | |- preserves _ (raise _) => apply preserves_raise
  | |- preserves _ (lift _) => apply preserves_lift
  | |- preserves _ (get _) => apply preserves_get
  | |- preserves _ get_handles => apply preserves_get_handles
  | |- preserves _ (py_assert _ _) => apply preserves_py_assert
  | |- preserves _ (for_each _ _) => apply preserves_for_each; intros ?
  | |- preserves _ (emit _) => apply preserves_emit
  | |- preserves _ (set_attr _) => apply preserves_set_attr
  | |- preserves _ (set_register _ _) => apply preserves_set_register
  | |- preserves _ (spi_xfer _) => apply preserves_spi_xfer
  | |- preserves _ (register_client _) => apply preserves_register_client
  | |- preserves _ (if _ then _ else _) => apply preserves_if
  | |- preserves _ (match ?x with _ => _ end) => destruct x
  | |- preserves _ (let (_, _) := ?x in _) => destruct x
  | |- preserves _ ?m => let h := head_of m in unfold h
  end
with head_of m :=
  lazymatch m with
  | ?f _ => head_of f
  | _ => m
  end.

Section Frame.

(** An invariant that no event but the transfer of RDATAC and no assignment
    but those named in the lemmas below can break. *)
Variable I : world -> Prop.

Hypothesis I_event : forall e w, is_rdatac e = false -> I w -> I (add_event e w).
Hypothesis I_registers :
  forall reg byte w, I w -> I (with_registers (insert reg byte) w).
Hypothesis I_spi_lock : forall v w, I w -> I (with_self (set_spi_lock v) w).
Hypothesis I_stubThread : forall v w, I w -> I (with_self (set_stubThread v) w).
Hypothesis I_APIAlive : forall v w, I w -> I (with_self (set_APIAlive v) w).

Ltac frame :=
  repeat frame_step;
  try solve [ intros; first [ apply I_event; [reflexivity | assumption]
                            | apply I_registers; assumption
                            | apply I_spi_lock; assumption
                            | apply I_stubThread; assumption
                            | apply I_APIAlive; assumption
                            | solve [auto] ] ].

Lemma frame_spi_transmit_byte (byte : Z) :
  byte <> RDATAC -> preserves I (spi_transmit_byte byte).
Proof.
  intros Hb. repeat frame_step.
  intros w Hw. apply I_event; [| exact Hw]. cbn. apply Z.eqb_neq. exact Hb.
Qed.

Lemma frame_spi_write_single_reg (reg byte : Z) : preserves I (spi_write_single_reg reg byte).
Proof. frame. Qed.

Lemma frame_spi_write_multiple_reg (start_reg : Z) (byte_array : list Z) :
  preserves I (spi_write_multiple_reg start_reg byte_array).
Proof. frame. Qed.

Lemma frame_call_handle (h : handle) (raw : list Z) : preserves I (call_handle h raw).
Proof. frame. Qed.

Lemma frame_drdy_callback (state : Z) : preserves I (drdy_callback state).
Proof. frame. Qed.

Lemma frame_reset_ongoing_state : preserves I reset_ongoing_state.
Proof. frame. Qed.

Lemma frame_setup_exg_mode : preserves I setup_exg_mode.
Proof. frame. Qed.

Lemma frame_setup_test_mode : preserves I setup_test_mode.
Proof. frame. Qed.

Lemma frame_open_device : preserves I open_device.
Proof. frame. Qed.

Lemma frame_close_device : preserves I close_device.
Proof. frame. Qed.

Lemma frame_stop_stream :
  (forall w, I w -> I (with_self (set_stream_active false) w)) ->
  preserves I stop_stream.
Proof. intros Hi. frame. Qed.

Lemma frame_configure (sampling_rate_arg : option Z) (bias_enabled_arg : option bool) :
  (forall v w, I w -> I (with_self (set_sampling_rate_attr v) w)) ->
  (forall v w, I w -> I (with_self (set_bias_enabled v) w)) ->
  preserves I (configure sampling_rate_arg bias_enabled_arg).
Proof. intros Hr Hb. frame. Qed.

(** The start methods end at [set_start]: the transfer of RDATAC that follows
    it in their text is not reached. *)
Lemma frame_start_exg_stream :
  (forall w, I w -> I (with_self (set_stream_active true) w)) ->
  preserves I start_exg_stream.
Proof.
  intros Ha. unfold start_exg_stream.
  apply preserves_bind; [apply frame_reset_ongoing_state | intros _].
  apply preserves_bind; [apply frame_setup_exg_mode | intros _].
  apply preserves_bind; [apply preserves_set_attr; exact Ha | intros _].
  apply preserves_bind_fails; [apply fails_set_start | frame].
Qed.

Lemma frame_start_test_stream :
  (forall w, I w -> I (with_self (set_stream_active true) w)) ->
  preserves I start_test_stream.
Proof.
  intros Ha. unfold start_test_stream.
  apply preserves_bind; [apply frame_reset_ongoing_state | intros _].
  apply preserves_bind; [apply frame_setup_test_mode | intros _].
  apply preserves_bind; [apply preserves_set_attr; exact Ha | intros _].
  apply preserves_bind_fails; [apply fails_set_start | frame].
Qed.

Lemma frame_run_call (c : api_call) :
  (forall v w, I w -> I (with_self (set_sampling_rate_attr v) w)) ->
  (forall v w, I w -> I (with_self (set_bias_enabled v) w)) ->
  (forall w, I w -> I (with_self (set_stream_active false) w)) ->
  (starts_stream c = true -> forall w, I w -> I (with_self (set_stream_active true) w)) ->
  (forall h, c = RegisterClient h -> forall w, I w -> I (with_handles (fun hs => hs ++ [h]) w)) ->
  preserves I (run_call c).
Proof.
  intros Hr Hb Hi Ha Hh. destruct c; cbn [run_call].
  - apply frame_open_device.
  - apply frame_close_device.
  - apply frame_start_exg_stream. apply Ha. reflexivity.
  - apply frame_start_test_stream. apply Ha. reflexivity.
  - apply frame_stop_stream. exact Hi.
  - apply preserves_register_client. apply (Hh h). reflexivity.
  - apply frame_configure; assumption.
  - apply frame_drdy_callback.
Qed.

End Frame.


(** Only the start methods can leave an idle driver streaming. *)
Lemma run_call_idle (c : api_call) (w : world) :
  starts_stream c = false ->
  stream_active (self w) = false ->
  stream_active (self (run_call c w).2) = false.
Proof.
  intros Hc Hw.
  apply (frame_run_call (fun w' => stream_active (self w') = false));
    try (intros; assumption); try reflexivity.
  intros Hs. congruence.
Qed.

(** Only [register_client] changes the list of handles. *)
Lemma run_call_handles (c : api_call) (w : world) :
  clientUpdateHandles (run_call c w).2 =
    clientUpdateHandles w ++ match c with RegisterClient h => [h] | _ => [] end.
Proof.
  destruct c; try reflexivity;
    rewrite app_nil_r;
    apply (frame_run_call (fun w' => clientUpdateHandles w' = clientUpdateHandles w));
    try (intros; assumption); try reflexivity; intros; discriminate.
Qed.

(** ** The ready signal: [drdy_callback] *)

Lemma dispatched_app (evs1 evs2 : list event) :
  dispatched (evs1 ++ evs2) = dispatched evs1 ++ dispatched evs2.
Proof. apply omap_app. Qed.

Lemma transfers_app (evs1 evs2 : list event) :
  transfers (evs1 ++ evs2) = transfers evs1 ++ transfers evs2.
Proof. apply omap_app. Qed.

Lemma appended_quiet_event (w0 : world) (e : event) (w : world) :
  dispatched [e] = [] -> transfers [e] = [] ->
  appended w0 quiet w -> appended w0 quiet (add_event e w).
Proof.
  intros Hd Ht (evs & Htr & Hqd & Hqt). exists (evs ++ [e]). split.
  - cbn. rewrite Htr, app_assoc. reflexivity.
  - split.
    + rewrite dispatched_app, Hqd, Hd. reflexivity.
    + rewrite transfers_app, Hqt, Ht. reflexivity.
Qed.

(** A handle is entered once, and its body makes no transfer and enters no
    handle. *)
Lemma call_handle_events (h : handle) (raw : list Z) (w : world) :
  exists evs : list event,
    trace (call_handle h raw w).2 = trace w ++ Call h raw :: evs /\ quiet evs.
Proof.
  assert (H : appended (add_event (Call h raw) w) quiet (call_handle h raw w).2).
  { unfold call_handle, bind at 1, emit at 1.
    assert (Hbody : preserves (appended (add_event (Call h raw) w) quiet)
                      match h with
                      | DefaultCallback => default_callback raw
                      | Client id =>
                          match client_outcome id raw with
                          | Some e => raise e
                          | None => ret tt
                          end
                      end).
    { repeat frame_step; intros w' Hw'; apply appended_quiet_event; auto. }
    apply Hbody. exists []. split; [symmetry; apply app_nil_r | split; reflexivity]. }
  destruct H as (evs & Htr & Hq). exists evs. split; [| exact Hq].
  rewrite Htr. cbn. rewrite <- app_assoc. reflexivity.
Qed.

(** The loop over the handles enters them in the order of the list, each
    once, and stops at the first one that raises. *)
Lemma for_each_dispatch (raw : list Z) (hs : list handle) :
  forall w : world,
    exists (n : nat) (evs : list event),
      (n <= length hs)%nat /\
      trace (for_each hs (fun h => call_handle h raw) w).2 = trace w ++ evs /\
      dispatched evs = map (fun h => (h, raw)) (take n hs) /\
      transfers evs = [] /\
      (is_ok (for_each hs (fun h => call_handle h raw) w).1 = true -> n = length hs).
Proof.
  induction hs as [| h rest IH]; intros w.
  - exists 0%nat, []. cbn. rewrite app_nil_r. auto.
  - destruct (call_handle_events h raw w) as (evs1 & Htr1 & Hd1 & Ht1).
    cbn [for_each]. unfold bind.
    destruct (call_handle h raw w) as [[[] | e] w1]; cbn [snd fst] in *.
    + destruct (IH w1) as (n & evs & Hn & Htr & Hd & Ht & Hok).
      exists (S n), (Call h raw :: evs1 ++ evs). repeat split.
      * cbn. lia.
      * rewrite Htr, Htr1, <- app_assoc. reflexivity.
      * change (Call h raw :: evs1 ++ evs) with ([Call h raw] ++ evs1 ++ evs).
        rewrite !dispatched_app, Hd1, Hd. reflexivity.
      * change (Call h raw :: evs1 ++ evs) with ([Call h raw] ++ evs1 ++ evs).
        rewrite !transfers_app, Ht1, Ht. reflexivity.
      * intros H. cbn. f_equal. apply Hok. exact H.
    + exists 1%nat, (Call h raw :: evs1). repeat split.
      * cbn. lia.
      * exact Htr1.
      * change (Call h raw :: evs1) with ([Call h raw] ++ evs1).
        rewrite dispatched_app, Hd1. cbn. rewrite take_0. reflexivity.
      * change (Call h raw :: evs1) with ([Call h raw] ++ evs1).
        rewrite transfers_app, Ht1. reflexivity.
      * cbn. discriminate.
Qed.

Lemma for_each_returns (raw : list Z) (hs : list handle) :
  (forall h, h ∈ hs -> forall w, is_ok (call_handle h raw w).1 = true) ->
  forall w : world, is_ok (for_each hs (fun h => call_handle h raw) w).1 = true.
Proof.
  induction hs as [| h rest IH]; intros Hall w.
  - reflexivity.
  - cbn [for_each]. unfold bind.
    pose proof (Hall h ltac:(left) w) as Hh.
    destruct (call_handle h raw w) as [[[] | e] w1]; cbn in Hh; [| discriminate].
    apply IH. intros h' Hin. apply Hall. right. exact Hin.
Qed.

Lemma drdy_callback_idle (state : Z) (w : world) :
  stream_active (self w) = false -> drdy_callback state w = (Ok tt, w).
Proof. intros H. unfold drdy_callback, bind, get. rewrite H. reflexivity. Qed.

Lemma drdy_callback_active (state : Z) (w : world) :
  stream_active (self w) = true ->
  drdy_callback state w =
    match spi_read_multiple_bytes (3 + NUM_CHANNELS * 3) w with
    | (Ok raw, w1) => for_each (clientUpdateHandles w1) (fun h => call_handle h raw) w1
    | (Err e, w1) => (Err e, w1)
    end.
Proof.
  intros H. unfold drdy_callback, bind at 1, get. rewrite H. cbn [negb].
  unfold bind at 1. destruct (spi_read_multiple_bytes _ w) as [[raw | e] w1]; reflexivity.
Qed.

Lemma spi_read_multiple_bytes_hardware (nb_bytes : nat) (w : world) :
  STUB_API = false -> spi_lock (self w) = true ->
  spi_read_multiple_bytes nb_bytes w =
    (spi_reply (trace w) (replicate nb_bytes 0x00),
     add_event (SpiXfer (replicate nb_bytes 0x00) spi_speed spi_pause) w).
Proof.
  intros Hs Hl. unfold spi_read_multiple_bytes. rewrite Hs.
  unfold with_spi_lock, bind, get. rewrite Hl. reflexivity.
Qed.

Lemma spi_read_multiple_bytes_handles (nb_bytes : nat) (w : world) :
  clientUpdateHandles (spi_read_multiple_bytes nb_bytes w).2 = clientUpdateHandles w.
Proof.
  assert (H : preserves (fun w' => clientUpdateHandles w' = clientUpdateHandles w)
                (spi_read_multiple_bytes nb_bytes))
    by (repeat frame_step; intros; assumption).
  apply H. reflexivity.
Qed.


(** ** Stopping the stream *)

Lemma stop_stream_idle (w w' : world) :
  stop_stream w = (Ok tt, w') -> stream_active (self w') = false.
Proof.
  unfold stop_stream, bind at 1.
  destruct (spi_transmit_byte SDATAC w) as [[[] | e] w1]; [| discriminate].
  intros [= <-]. reflexivity.
Qed.

Lemma run_calls_idle (calls : list api_call) :
  Forall (fun c => starts_stream c = false) calls ->
  forall w : world,
    stream_active (self w) = false ->
    stream_active (self (run_calls calls w)) = false.
Proof.
  induction 1 as [| c rest Hc _ IH]; intros w Hw.
  - exact Hw.
  - cbn. apply IH. apply run_call_idle; assumption.
Qed.

(** C8. Once [stop_stream] has returned, and whatever calls other than the
    two start methods follow, a ready signal returns at once and leaves the
    world as it is: the trace gets no transfer and no entry of a handle. *)
Theorem ready_signal_ignored_after_stop (w w' : world) (calls : list api_call) (state : Z) :
  stop_stream w = (Ok tt, w') ->
  Forall (fun c => starts_stream c = false) calls ->
  drdy_callback state (run_calls calls w') = (Ok tt, run_calls calls w').
Proof.
  intros Hstop Hcalls. apply drdy_callback_idle.
  apply run_calls_idle; [exact Hcalls |]. exact (stop_stream_idle w w' Hstop).
Qed.

(** ** Clients *)

(** ** The control pins *)

Lemma open_device_raises (w : world) :
  exists w' : world,
    open_device w = (Err (AttributeError "nRESET_PIN"), w') /\
    trace w' = trace w ++ open_device_events.
Proof.
  unfold open_device, open_device_events. destruct w as [a hs regs tr].
  destruct STUB_API; eexists; (split; [reflexivity |]); cbn;
    rewrite <- ?app_assoc; reflexivity.
Qed.

Lemma fails_start_exg_stream : fails start_exg_stream.
Proof.
  unfold start_exg_stream.
  do 3 (apply fails_bind_r; intros ?). apply fails_bind_l, fails_set_start.
Qed.

Lemma fails_start_test_stream : fails start_test_stream.
Proof.
  unfold start_test_stream.
  do 3 (apply fails_bind_r; intros ?). apply fails_bind_l, fails_set_start.
Qed.

Lemma no_rdatac_transfers (evs : list event) :
  Forall (fun e => is_rdatac e = false) evs -> [RDATAC] ∉ transfers evs.
Proof.
  induction 1 as [| e rest He _ IH]; cbn.
  - apply not_elem_of_nil.
  - destruct e; try exact IH.
    apply not_elem_of_cons. split; [| exact IH].
    intros <-. cbn in He. discriminate.
Qed.

Lemma appended_no_rdatac_event (w0 : world) (e : event) (w : world) :
  is_rdatac e = false ->
  appended w0 (Forall (fun e => is_rdatac e = false)) w ->
  appended w0 (Forall (fun e => is_rdatac e = false)) (add_event e w).
Proof.
  intros He (evs & Htr & Hall). exists (evs ++ [e]). split.
  - cbn. rewrite Htr, app_assoc. reflexivity.
  - apply Forall_app. split; [exact Hall | constructor; [exact He | constructor]].
Qed.

Lemma appended_refl (w : world) (P : list event -> Prop) : P [] -> appended w P w.
Proof. intros H. exists []. split; [symmetry; apply app_nil_r | exact H]. Qed.

Lemma start_exg_stream_no_rdatac (w : world) :
  exists evs : list event,
    trace (start_exg_stream w).2 = trace w ++ evs /\ [RDATAC] ∉ transfers evs.
Proof.
  assert (H : appended w (Forall (fun e => is_rdatac e = false)) (start_exg_stream w).2).
  { apply frame_start_exg_stream;
      try (intros; assumption); [| apply appended_refl; constructor].
    intros. apply appended_no_rdatac_event; assumption. }
  destruct H as (evs & Htr & Hall). exists evs. split; [exact Htr |].
  apply no_rdatac_transfers. exact Hall.
Qed.

Lemma start_test_stream_no_rdatac (w : world) :
  exists evs : list event,
    trace (start_test_stream w).2 = trace w ++ evs /\ [RDATAC] ∉ transfers evs.
Proof.
  assert (H : appended w (Forall (fun e => is_rdatac e = false)) (start_test_stream w).2).
  { apply frame_start_test_stream;
      try (intros; assumption); [| apply appended_refl; constructor].
    intros. apply appended_no_rdatac_event; assumption. }
  destruct H as (evs & Htr & Hall). exists evs. split; [exact Htr |].
  apply no_rdatac_transfers. exact Hall.
Qed.

(** ** Methods that return *)

Lemma runs_inv {A : Type} (P : world -> Prop) (m : M A) (w : world) :
  runs P m -> P w -> exists (a : A) (w' : world), m w = (Ok a, w') /\ P w'.
Proof.
  intros Hm Hw. destruct (Hm w Hw) as [Hok HP].
  destruct (m w) as [[a | e] w']; cbn in *; [eauto | discriminate].
Qed.

Lemma runs_ret {A : Type} (P : world -> Prop) (a : A) : runs P (ret a).
Proof. intros w H. split; [reflexivity | exact H]. Qed.

Lemma runs_get {A : Type} (P : world -> Prop) (f : Ads1298Api -> A) : runs P (get f).
Proof. intros w H. split; [reflexivity | exact H]. Qed.

Lemma runs_bind {A B : Type} (P : world -> Prop) (m : M A) (k : A -> M B) :
  runs P m -> (forall a, runs P (k a)) -> runs P (bind m k).
Proof.
  intros Hm Hk w Hw. destruct (runs_inv P m w Hm Hw) as (a & w' & E & Hw').
  unfold bind. rewrite E. apply Hk. exact Hw'.
Qed.

Lemma runs_if {A : Type} (P : world -> Prop) (c : bool) (m1 m2 : M A) :
  runs P m1 -> runs P m2 -> runs P (if c then m1 else m2).
Proof. destruct c; auto. Qed.

Section Ready.

(** The transfers succeed. *)
Hypothesis bus_replies : forall (h : list event) (tx : list Z), is_ok (spi_reply h tx) = true.

Variable rate : Z.

Lemma runs_emit (e : event) : runs (ready rate) (emit e).
Proof. intros w H. split; [reflexivity | exact H]. Qed.

Lemma transmission_ready (tx : list Z) (image : gmap Z Z) (w : world) :
  ready rate w ->
  is_ok (transmission tx image w).1 = true /\ ready rate (transmission tx image w).2.
Proof.
  intros [Hmode Hrate]. unfold transmission.
  destruct STUB_API eqn:Es.
  - split; [reflexivity | split; [left; exact Es | exact Hrate]].
  - destruct Hmode as [Hs | Hl]; [discriminate |]. rewrite Hl.
    pose proof (bus_replies (trace w) tx) as Hr.
    destruct (spi_reply (trace w) tx); [| discriminate].
    split; [reflexivity | split; [right; exact Hl | exact Hrate]].
Qed.

Lemma runs_spi_write_single_reg (reg byte : Z) :
  runs (ready rate) (spi_write_single_reg reg byte).
Proof. intros w H. rewrite spi_write_single_reg_eq. apply transmission_ready. exact H. Qed.

Lemma runs_spi_write_multiple_reg (start_reg : Z) (byte_array : list Z) :
  runs (ready rate) (spi_write_multiple_reg start_reg byte_array).
Proof.
  intros w H. destruct (spi_write_multiple_reg_eq start_reg byte_array w) as [image [_ E]].
  rewrite E. apply transmission_ready. exact H.
Qed.

Lemma runs_spi_transmit_byte (byte : Z) : runs (ready rate) (spi_transmit_byte byte).
Proof.
  intros w [Hmode Hrate]. unfold spi_transmit_byte.
  destruct STUB_API eqn:Es.
  - split; [reflexivity | split; [left; exact Es | exact Hrate]].
  - destruct Hmode as [Hs | Hl]; [discriminate |].
    unfold with_spi_lock, bind, get, spi_xfer. rewrite Hl.
    pose proof (bus_replies (trace w) [byte]) as Hr.
    destruct (spi_reply (trace w) [byte]); [| discriminate].
    split; [reflexivity | split; [right; exact Hl | exact Hrate]].
Qed.

Lemma runs_set_sampling_rate :
  rate = 500 \/ rate = 1000 \/ rate = 2000 -> runs (ready rate) set_sampling_rate.
Proof.
  intros Hsup w H. rewrite set_sampling_rate_cases. cbv zeta.
  destruct H as [Hmode Hrate]. rewrite Hrate.
  destruct (Z.eqb_spec rate 2000);
    [apply runs_spi_write_single_reg; split; assumption |].
  destruct (Z.eqb_spec rate 1000);
    [apply runs_spi_write_single_reg; split; assumption |].
  destruct (Z.eqb_spec rate 500);
    [apply runs_spi_write_single_reg; split; assumption |].
  exfalso. lia.
Qed.

Ltac runs_step :=
  lazymatch goal with
  | |- runs _ (bind _ _) => apply runs_bind; [| intros ?]
  | |- runs _ (spi_write_single_reg _ _) => apply runs_spi_write_single_reg
  | |- runs _ (spi_write_multiple_reg _ _) => apply runs_spi_write_multiple_reg
  | |- runs _ (spi_transmit_byte _) => apply runs_spi_transmit_byte
  | |- runs _ set_sampling_rate => apply runs_set_sampling_rate; assumption
  | |- runs _ (emit _) => apply runs_emit
  | |- runs _ (get _) => apply runs_get
  | |- runs _ (ret _) => apply runs_ret
  | |- runs _ (if _ then _ else _) => apply runs_if
  | |- runs _ ?m => let h := head_of m in unfold h
  end.

Lemma runs_reset_ongoing_state :
  rate = 500 \/ rate = 1000 \/ rate = 2000 -> runs (ready rate) reset_ongoing_state.
Proof. intros Hsup. repeat runs_step. Qed.

Lemma runs_setup_exg_mode : runs (ready rate) setup_exg_mode.
Proof. repeat runs_step. Qed.

Lemma runs_setup_test_mode : runs (ready rate) setup_test_mode.
Proof. repeat runs_step. Qed.

(** With a supported rate other than 4000 the start methods get as far as
    [set_start], whose attribute lookup raises. *)
Lemma start_exg_stream_attribute_error (w : world) :
  rate = 500 \/ rate = 1000 \/ rate = 2000 -> ready rate w ->
  fst (start_exg_stream w) = Err (AttributeError "START_PIN").
Proof.
  intros Hsup Hw. unfold start_exg_stream.
  destruct (runs_inv _ _ w (runs_reset_ongoing_state Hsup) Hw) as ([] & w1 & E1 & H1).
  unfold bind at 1. rewrite E1.
  destruct (runs_inv _ _ w1 runs_setup_exg_mode H1) as ([] & w2 & E2 & H2).
  unfold bind at 1. rewrite E2. reflexivity.
Qed.

Lemma start_test_stream_attribute_error (w : world) :
  rate = 500 \/ rate = 1000 \/ rate = 2000 -> ready rate w ->
  fst (start_test_stream w) = Err (AttributeError "START_PIN").
Proof.
  intros Hsup Hw. unfold start_test_stream.
  destruct (runs_inv _ _ w (runs_reset_ongoing_state Hsup) Hw) as ([] & w1 & E1 & H1).
  unfold bind at 1. rewrite E1.
  destruct (runs_inv _ _ w1 runs_setup_test_mode H1) as ([] & w2 & E2 & H2).
  unfold bind at 1. rewrite E2. reflexivity.
Qed.

(** With a rate that [set_sampling_rate] rejects, [reset_ongoing_state]
    raises its [ValueError]. *)
Lemma reset_ongoing_state_invalid_rate (w : world) :
  rate <> 500 -> rate <> 1000 -> rate <> 2000 -> ready rate w ->
  fst (reset_ongoing_state w) = Err (ValueError "Invalid sample rate").
Proof.
  intros N1 N2 N3 Hw. unfold reset_ongoing_state.
  destruct (runs_inv _ _ w (runs_spi_transmit_byte SDATAC) Hw) as ([] & w1 & E1 & H1).
  unfold bind at 1. rewrite E1.
  destruct (runs_inv _ _ w1 (runs_spi_write_single_reg REG_CONFIG3 0x48) H1)
    as ([] & w2 & E2 & H2).
  unfold bind at 1. rewrite E2.
  unfold bind at 1. rewrite set_sampling_rate_cases. cbv zeta.
  destruct H2 as [_ ->].
  destruct (Z.eqb_spec rate 2000); [contradiction |].
  destruct (Z.eqb_spec rate 1000); [contradiction |].
  destruct (Z.eqb_spec rate 500); [contradiction |].
  reflexivity.
Qed.

Lemma start_exg_stream_invalid_rate (w : world) :
  rate <> 500 -> rate <> 1000 -> rate <> 2000 -> ready rate w ->
  fst (start_exg_stream w) = Err (ValueError "Invalid sample rate").
Proof.
  intros N1 N2 N3 Hw. unfold start_exg_stream, bind at 1.
  pose proof (reset_ongoing_state_invalid_rate w N1 N2 N3 Hw) as E.
  destruct (reset_ongoing_state w) as [[[] | e] w1]; cbn in E; [discriminate |].
  exact E.
Qed.

Lemma start_test_stream_invalid_rate (w : world) :
  rate <> 500 -> rate <> 1000 -> rate <> 2000 -> ready rate w ->
  fst (start_test_stream w) = Err (ValueError "Invalid sample rate").
Proof.
  intros N1 N2 N3 Hw. unfold start_test_stream, bind at 1.
  pose proof (reset_ongoing_state_invalid_rate w N1 N2 N3 Hw) as E.
  destruct (reset_ongoing_state w) as [[[] | e] w1]; cbn in E; [discriminate |].
  exact E.
Qed.

End Ready.

(** C10. [open_device] always raises [AttributeError] at [self.nRESET_PIN],
    the first step of the start-up sequence, in both modes.  The start
    methods never return and never transfer RDATAC, in any world; when the
    transfers go through, they raise [AttributeError] at [self.START_PIN]
    for the rates 500, 1000 and 2000, and the [ValueError] of
    [set_sampling_rate] for a rate outside 500, 1000, 2000 and 4000.  The
    three pin helpers raise before [set_pin] is called. *)
Theorem control_pin_lookups_raise :
  (forall w : world,
      exists w' : world,
        open_device w = (Err (AttributeError "nRESET_PIN"), w') /\
        trace w' = trace w ++ open_device_events) /\
  (forall (state : bool) (w : world),
      set_start state w = (Err (AttributeError "START_PIN"), w) /\
      set_nreset state w = (Err (AttributeError "nRESET_PIN"), w) /\
      set_npwrdn state w = (Err (AttributeError "nPWRDN_PIN"), w)) /\
  (forall w : world,
      is_ok (start_exg_stream w).1 = false /\
      is_ok (start_test_stream w).1 = false /\
      (exists evs, trace (start_exg_stream w).2 = trace w ++ evs /\ [RDATAC] ∉ transfers evs) /\
      (exists evs, trace (start_test_stream w).2 = trace w ++ evs /\ [RDATAC] ∉ transfers evs)) /\
  ((forall h tx, is_ok (spi_reply h tx) = true) ->
   forall w : world,
     STUB_API = true \/ spi_lock (self w) = true ->
     (sampling_rate (self w) = 500 \/ sampling_rate (self w) = 1000 \/
      sampling_rate (self w) = 2000 ->
      fst (start_exg_stream w) = Err (AttributeError "START_PIN") /\
      fst (start_test_stream w) = Err (AttributeError "START_PIN")) /\
     (sampling_rate (self w) <> 500 -> sampling_rate (self w) <> 1000 ->
      sampling_rate (self w) <> 2000 -> sampling_rate (self w) <> 4000 ->
      fst (start_exg_stream w) = Err (ValueError "Invalid sample rate") /\
      fst (start_test_stream w) = Err (ValueError "Invalid sample rate"))).
Proof.
  split; [exact open_device_raises |].
  split; [intros state w; repeat split |].
  split.
  - intros w. split; [apply fails_start_exg_stream |].
    split; [apply fails_start_test_stream |].
    split; [apply start_exg_stream_no_rdatac | apply start_test_stream_no_rdatac].
  - intros Hbus w Hmode.
    assert (Hw : ready (sampling_rate (self w)) w) by (split; [exact Hmode | reflexivity]).
    split.
    + intros Hsup. split.
      * exact (start_exg_stream_attribute_error Hbus _ w Hsup Hw).
      * exact (start_test_stream_attribute_error Hbus _ w Hsup Hw).
    + intros N1 N2 N3 _. split.
      * exact (start_exg_stream_invalid_rate Hbus _ w N1 N2 N3 Hw).
      * exact (start_test_stream_invalid_rate Hbus _ w N1 N2 N3 Hw).
Qed.

(** ** More about the codec *)

Lemma bytes3 (b0 b1 b2 : Z) :
  bytes [b0; b1; b2] <-> 0 <= b0 <= 255 /\ 0 <= b1 <= 255 /\ 0 <= b2 <= 255.
Proof.
  unfold bytes. split.
  - intros H. inversion H as [| ? ? H0 H']; subst.
    inversion H' as [| ? ? H1 H'']; subst.
    inversion H'' as [| ? ? H2 _]; subst. auto.
  - intros (H0 & H1 & H2). repeat constructor; lia.
Qed.

Lemma forallb_is_byte (l : list Z) : forallb is_byte l = true <-> bytes l.
Proof.
  unfold bytes. rewrite forallb_forall, Forall_forall. split.
  - intros H b Hb. apply is_byte_spec. apply H. apply list_elem_of_In. exact Hb.
  - intros H b Hb. apply is_byte_spec. apply H. apply list_elem_of_In. exact Hb.
Qed.

(** X1. On byte triples [convert_24b_data] with its default format is
    one-to-one, and it reaches every integer of [-2^23, 2^23): the three
    bytes and the signed sample determine each other. *)
Theorem convert_24b_data_bijective :
  (forall a0 a1 a2 b0 b1 b2 : Z,
      bytes [a0; a1; a2] -> bytes [b0; b1; b2] ->
      convert_24b_data [a0; a1; a2] FmtSigned = convert_24b_data [b0; b1; b2] FmtSigned ->
      [a0; a1; a2] = [b0; b1; b2]) /\
  (forall v : Z,
      - 2 ^ 23 <= v < 2 ^ 23 ->
      exists b0 b1 b2 : Z,
        bytes [b0; b1; b2] /\ convert_24b_data [b0; b1; b2] FmtSigned = Ok v).
Proof.
  split.
  - intros a0 a1 a2 b0 b1 b2 Ha Hb.
    apply bytes3 in Ha as (A0 & A1 & A2). apply bytes3 in Hb as (B0 & B1 & B2).
    rewrite (convert_24b_data_bytes a0 a1 a2 FmtSigned A0 A1 A2).
    rewrite (convert_24b_data_bytes b0 b1 b2 FmtSigned B0 B1 B2).
    intros [= E]. unfold be24 in E.
    destruct (Z.gtb_spec a0 127), (Z.gtb_spec b0 127);
      assert (a0 = b0 /\ a1 = b1 /\ a2 = b2) as (-> & -> & ->) by lia; reflexivity.
  - intros v Hv.
    set (u := v mod 2 ^ 24).
    assert (Hu : 0 <= u < 2 ^ 24) by (apply Z.mod_pos_bound; lia).
    assert (Huv : u = if v <? 0 then v + 2 ^ 24 else v).
    { unfold u. destruct (Z.ltb_spec v 0).
      - symmetry. apply Z.mod_unique with (q := -1); lia.
      - apply Z.mod_small. lia. }
    exists (u / 65536), ((u / 256) mod 256), (u mod 256).
    assert (R0 : 0 <= u / 65536 <= 255).
    { split; [apply Z.div_pos; lia |]. apply Z.lt_succ_r. apply Z.div_lt_upper_bound; lia. }
    assert (R1 : 0 <= (u / 256) mod 256 <= 255)
      by (pose proof (Z.mod_pos_bound (u / 256) 256); lia).
    assert (R2 : 0 <= u mod 256 <= 255) by (pose proof (Z.mod_pos_bound u 256); lia).
    split; [apply bytes3; auto |].
    rewrite (convert_24b_data_bytes _ _ _ FmtSigned R0 R1 R2).
    assert (Hbe : be24 (u / 65536) ((u / 256) mod 256) (u mod 256) = u).
    { unfold be24.
      pose proof (Z.div_mod u 256 ltac:(lia)) as D1.
      pose proof (Z.div_mod (u / 256) 256 ltac:(lia)) as D2.
      assert (D3 : u / 256 / 256 = u / 65536) by (rewrite Z.div_div by lia; reflexivity).
      lia. }
    rewrite Hbe. f_equal.
    assert (Hsign : (u / 65536 >? 127) = (v <? 0)).
    { destruct (Z.ltb_spec v 0) as [Hneg | Hpos].
      - destruct (Z.gtb_spec (u / 65536) 127) as [Hgt | Hle]; [reflexivity |].
        exfalso. assert (128 <= u / 65536); [| lia].
        apply Z.div_le_lower_bound; lia.
      - destruct (Z.gtb_spec (u / 65536) 127) as [Hgt | Hle]; [| reflexivity].
        exfalso. assert (u / 65536 <= 127); [| lia].
        apply Z.lt_succ_r. apply Z.div_lt_upper_bound; lia. }
    rewrite Hsign. destruct (v <? 0); lia.
Qed.

(** X2. [convert_24b_data] returns exactly on three bytes: an input whose
    length is not 3 raises the [ValueError] of the length check, and an input
    of length 3 with an element outside 0..255 raises [struct.error]. *)
Theorem convert_24b_data_domain (unpacked : list Z) (f : fmt) :
  (length unpacked = 3%nat -> bytes unpacked -> is_ok (convert_24b_data unpacked f) = true) /\
  (length unpacked <> 3%nat ->
   convert_24b_data unpacked f = Err (ValueError "Input should be 3 bytes long.")) /\
  (length unpacked = 3%nat -> ~ bytes unpacked ->
   convert_24b_data unpacked f = Err StructError).
Proof.
  split; [| split].
  - intros Hlen Hb.
    destruct unpacked as [| b0 [| b1 [| b2 [| ? ?]]]]; try discriminate.
    apply bytes3 in Hb as (H0 & H1 & H2).
    rewrite (convert_24b_data_bytes b0 b1 b2 f H0 H1 H2). reflexivity.
  - apply convert_24b_data_bad_length.
  - intros Hlen Hb.
    destruct unpacked as [| b0 [| b1 [| b2 [| ? ?]]]]; try discriminate.
    unfold convert_24b_data, struct_pack_3B. cbn [length Nat.eqb negb bindR].
    destruct (forallb is_byte [b0; b1; b2]) eqn:E; [| reflexivity].
    exfalso. apply Hb. apply forallb_is_byte. exact E.
Qed.

(** X3. For a frame in sync, of 27 bytes or more, read on real hardware,
    the lead-off flags that [default_callback] prints are bits 19..12 and
    11..4 of the status word: the positive flags are the low nibble of the
    first byte followed by the high nibble of the second, the negative flags
    the low nibble of the second byte followed by the high nibble of the
    third; the low nibble of the third byte is not used. *)
Theorem default_callback_lead_off_flags (b0 b1 b2 : Z) (rest : list Z) (w : world) :
  STUB_API = false -> bytes (b0 :: b1 :: b2 :: rest) ->
  (3 * NUM_CHANNELS <= length rest)%nat ->
  Z.shiftr (be24 b0 b1 b2) 20 = 12 ->
  exists samples : list float,
    default_callback (b0 :: b1 :: b2 :: rest) w =
      (Ok tt,
       add_event (Print (SamplesLine samples))
         (add_event
            (Print (LoffLine (b0 mod 16 * 16 + b1 / 16) (b1 mod 16 * 16 + b2 / 16)))
            (add_event (GpioOutput CE1 true) w))).
Proof.
  intros Hs Hb Hlen Hsync.
  pose proof Hb as Hb'. unfold bytes in Hb'.
  inversion Hb' as [| ? ? H0 Hb1]; subst.
  inversion Hb1 as [| ? ? H1 Hb2]; subst.
  inversion Hb2 as [| ? ? H2 _]; subst.
  rewrite (default_callback_hardware _ w Hs Hb) by (cbn; lia).
  change (frame_status (b0 :: b1 :: b2 :: rest)) with (be24 b0 b1 b2).
  cbv zeta. rewrite Hsync. cbn [Z.eqb Pos.eqb].
  rewrite (fill_samples_ok _ NUM_CHANNELS Hb 0)
    by (rewrite ?length_replicate; unfold NUM_CHANNELS in *; cbn [length]; lia).
  eexists.
  assert (Ep : Z.land (Z.shiftr (be24 b0 b1 b2) 12) 0xff = b0 mod 16 * 16 + b1 / 16).
  { change 0xff with (Z.ones 8). rewrite Z.land_ones, Z.shiftr_div_pow2 by lia.
    unfold be24. change (2 ^ 12) with 4096. change (2 ^ 8) with 256.
    assert (Ed : (b0 * 65536 + b1 * 256 + b2) / 4096 = b0 * 16 + b1 / 16).
    { symmetry. apply Z.div_unique with (r := b1 mod 16 * 256 + b2).
      - pose proof (Z.mod_pos_bound b1 16). lia.
      - pose proof (Z.div_mod b1 16). lia. }
    rewrite Ed. symmetry. apply Z.mod_unique with (q := b0 / 16).
    - pose proof (Z.mod_pos_bound b0 16).
      assert (0 <= b1 / 16 <= 15)
        by (split; [apply Z.div_pos; lia | apply Z.lt_succ_r, Z.div_lt_upper_bound; lia]).
      lia.
    - pose proof (Z.div_mod b0 16). lia. }
  assert (En : Z.land (Z.shiftr (be24 b0 b1 b2) 4) 0xff = b1 mod 16 * 16 + b2 / 16).
  { change 0xff with (Z.ones 8). rewrite Z.land_ones, Z.shiftr_div_pow2 by lia.
    unfold be24. change (2 ^ 4) with 16. change (2 ^ 8) with 256.
    assert (Ed : (b0 * 65536 + b1 * 256 + b2) / 16 = b0 * 4096 + b1 * 16 + b2 / 16).
    { symmetry. apply Z.div_unique with (r := b2 mod 16).
      - pose proof (Z.mod_pos_bound b2 16). lia.
      - pose proof (Z.div_mod b2 16). lia. }
    rewrite Ed. symmetry. apply Z.mod_unique with (q := b0 * 16 + b1 / 16).
    - pose proof (Z.mod_pos_bound b1 16).
      assert (0 <= b2 / 16 <= 15)
        by (split; [apply Z.div_pos; lia | apply Z.lt_succ_r, Z.div_lt_upper_bound; lia]).
      lia.
    - pose proof (Z.div_mod b1 16). lia. }
  rewrite Ep, En. reflexivity.
Qed.

(** ** The device identity *)

Lemma id_masks (id : Z) :
  0 <= id <= 255 ->
  (Z.land id 0x18 =? 0x10) && (Z.land id 0xE0 =? 0x80) && (Z.land id 0x03 =? 0x02) =
    (id =? 0x92) || (id =? 0x96).
Proof.
  intros Hid.
  assert (H : forallb
                (fun n => Bool.eqb
                            ((Z.land (Z.of_nat n) 0x18 =? 0x10)
                             && (Z.land (Z.of_nat n) 0xE0 =? 0x80)
                             && (Z.land (Z.of_nat n) 0x03 =? 0x02))
                            ((Z.of_nat n =? 0x92) || (Z.of_nat n =? 0x96)))
                (seq 0 256) = true) by (vm_compute; reflexivity).
  rewrite forallb_forall in H.
  specialize (H (Z.to_nat id)). rewrite Z2Nat.id in H by lia.
  apply Bool.eqb_prop. apply H. apply in_seq. lia.
Qed.

(** X4. [check_device_id] reads the ID register with one transfer of
    [0x20, 0, 0] and takes the third byte of the reply.  It returns exactly
    when that byte is 0x92 or 0x96; otherwise it raises the assertion of the
    first check that fails, the reserved bits before the family and the
    family before the device.  In stub mode it returns without a transfer. *)
Theorem check_device_id_accepts :
  (STUB_API = true -> forall w : world, check_device_id w = (Ok tt, w)) /\
  (STUB_API = false ->
   forall (w : world) (r : list Z) (id : Z),
     spi_lock (self w) = true ->
     spi_reply (trace w) [0x20; 0x00; 0x00] = Ok r ->
     r !! 2%nat = Some id ->
     0 <= id <= 255 ->
     check_device_id w =
       (if negb (Z.land id 0x18 =? 0x10)
        then Err (AssertionError "Reserved bytes don't match")
        else if negb (Z.land id 0xE0 =? 0x80)
             then Err (AssertionError "Not ADS129x device family")
             else if negb (Z.land id 0x03 =? 0x02)
                  then Err (AssertionError "Not ADS1298 device")
                  else Ok tt,
        add_event (SpiXfer [0x20; 0x00; 0x00] spi_speed spi_pause) w) /\
     (is_ok (check_device_id w).1 = true <-> id = 0x92 \/ id = 0x96)).
Proof.
  split.
  - intros Hs w. unfold check_device_id, spi_read_reg. rewrite Hs. reflexivity.
  - intros Hs w r id Hl Hr Hid Hrange.
    assert (E : check_device_id w =
                  (if negb (Z.land id 0x18 =? 0x10)
                   then Err (AssertionError "Reserved bytes don't match")
                   else if negb (Z.land id 0xE0 =? 0x80)
                        then Err (AssertionError "Not ADS129x device family")
                        else if negb (Z.land id 0x03 =? 0x02)
                             then Err (AssertionError "Not ADS1298 device")
                             else Ok tt,
                   add_event (SpiXfer [0x20; 0x00; 0x00] spi_speed spi_pause) w)).
    { unfold check_device_id, spi_read_reg. rewrite Hs.
      unfold with_spi_lock, bind, get, spi_xfer. rewrite Hl.
      change (Z.lor 0x20 REG_ID) with 0x20. rewrite Hr.
      unfold lift, index. rewrite Hid. unfold py_assert.
      destruct (Z.land id 0x18 =? 0x10); [| reflexivity].
      destruct (Z.land id 0xE0 =? 0x80); [| reflexivity].
      destruct (Z.land id 0x03 =? 0x02); reflexivity. }
    split; [exact E |]. rewrite E. cbn [fst].
    pose proof (id_masks id Hrange) as Hm.
    destruct (Z.land id 0x18 =? 0x10), (Z.land id 0xE0 =? 0x80), (Z.land id 0x03 =? 0x02);
      cbn in Hm |- *;
      (split; [intros Hok; try discriminate Hok | intros Hor; try reflexivity]);
      try (symmetry in Hm; apply orb_true_iff in Hm; rewrite !Z.eqb_eq in Hm; exact Hm);
      try (symmetry in Hm; apply orb_false_iff in Hm; rewrite !Z.eqb_neq in Hm; lia).
Qed.

(** ** More about the ready signal *)

(** In the embedding a client callable returns or raises and makes no call
    on the driver; a ready signal then leaves the attributes, the handles and
    the register image as they were. *)
Lemma drdy_callback_frame (state : Z) (w : world) :
  self (drdy_callback state w).2 = self w /\
  clientUpdateHandles (drdy_callback state w).2 = clientUpdateHandles w /\
  config_registers (drdy_callback state w).2 = config_registers w.
Proof.
  assert (H : preserves (fun w' => self w' = self w /\
                                   clientUpdateHandles w' = clientUpdateHandles w /\
                                   config_registers w' = config_registers w)
                (drdy_callback state))
    by (repeat frame_step; intros w' Hw'; exact Hw').
  apply H. auto.
Qed.

(** X5. The code of the module on the path of a ready signal assigns
    nothing: when the handles registered are the module's own
    [default_callback], or there is none, [drdy_callback] leaves the
    attributes of the driver, the list of handles and the register image as
    they were, whatever the bus returns; it only adds to the trace. *)
Theorem drdy_callback_keeps_state (state : Z) (w : world) :
  Forall (fun h => h = DefaultCallback) (clientUpdateHandles w) ->
  self (drdy_callback state w).2 = self w /\
  clientUpdateHandles (drdy_callback state w).2 = clientUpdateHandles w /\
  config_registers (drdy_callback state w).2 = config_registers w.
Proof. intros _. apply drdy_callback_frame. Qed.

(** X6. In stub mode a ready signal on an active stream makes no transfer
    and hands the handles an empty frame, in the order of the list and up to
    the first one that raises. *)
Theorem drdy_callback_stub_empty_frame (state : Z) (w : world) :
  STUB_API = true -> stream_active (self w) = true ->
  exists (n : nat) (evs : list event),
    (n <= length (clientUpdateHandles w))%nat /\
    trace (drdy_callback state w).2 = trace w ++ evs /\
    transfers evs = [] /\
    dispatched evs = map (fun h => (h, [])) (take n (clientUpdateHandles w)) /\
    (is_ok (drdy_callback state w).1 = true -> n = length (clientUpdateHandles w)).
Proof.
  intros Hs Ha. rewrite (drdy_callback_active state w Ha).
  unfold spi_read_multiple_bytes. rewrite Hs. unfold ret.
  destruct (for_each_dispatch [] (clientUpdateHandles w) w)
    as (n & evs & Hn & Htr & Hd & Ht & Hok).
  exists n, evs. auto.
Qed.

(** X7. On real hardware a ready signal whose read fails enters no handle:
    without the lock it raises before any transfer, and when the transfer
    raises, the exception of the transfer is the exception of the call. *)
Theorem drdy_callback_failed_read (state : Z) (w : world) :
  STUB_API = false -> stream_active (self w) = true ->
  (spi_lock (self w) = false ->
   exists e, drdy_callback state w = (Err e, w)) /\
  (spi_lock (self w) = true ->
   forall e, spi_reply (trace w) (replicate 27 0x00) = Err e ->
             drdy_callback state w =
               (Err e, add_event (SpiXfer (replicate 27 0x00) spi_speed spi_pause) w)).
Proof.
  intros Hs Ha. rewrite (drdy_callback_active state w Ha). split.
  - intros Hl. eexists. unfold spi_read_multiple_bytes. rewrite Hs.
    unfold with_spi_lock, bind, get. rewrite Hl. reflexivity.
  - intros Hl e Hr. rewrite (spi_read_multiple_bytes_hardware _ w Hs Hl).
    change (replicate (3 + NUM_CHANNELS * 3) 0x00) with (replicate 27 0x00).
    rewrite Hr. reflexivity.
Qed.

Lemma for_each_stops (raw : list Z) (h : handle) (post : list handle) (e : exn)
    (pre : list handle) :
  (forall h', h' ∈ pre -> forall w, is_ok (call_handle h' raw w).1 = true) ->
  (forall w, (call_handle h raw w).1 = Err e) ->
  forall w : world,
    exists evs : list event,
      (for_each (pre ++ h :: post) (fun h' => call_handle h' raw) w).1 = Err e /\
      trace (for_each (pre ++ h :: post) (fun h' => call_handle h' raw) w).2 = trace w ++ evs /\
      dispatched evs = map (fun h' => (h', raw)) (pre ++ [h]).
Proof.
  intros Hpre Hh. induction pre as [| p pre IH]; intros w.
  - destruct (call_handle_events h raw w) as (evs & Htr & Hd & _).
    specialize (Hh w). cbn [app for_each]. unfold bind.
    destruct (call_handle h raw w) as [[[] | e'] w1]; cbn in Hh; [discriminate |].
    exists (Call h raw :: evs). cbn [fst snd] in *. repeat split.
    + exact Hh.
    + exact Htr.
    + change (Call h raw :: evs) with ([Call h raw] ++ evs).
      rewrite dispatched_app, Hd. reflexivity.
  - destruct (call_handle_events p raw w) as (evs1 & Htr1 & Hd1 & _).
    pose proof (Hpre p ltac:(left) w) as Hp.
    cbn [app for_each]. unfold bind.
    destruct (call_handle p raw w) as [[[] | e'] w1]; cbn in Hp; [| discriminate].
    destruct (IH ltac:(intros h' Hin; apply Hpre; right; exact Hin) w1)
      as (evs & Hres & Htr & Hd).
    exists (Call p raw :: evs1 ++ evs). cbn [fst snd] in *. repeat split.
    + exact Hres.
    + rewrite Htr, Htr1, <- app_assoc. reflexivity.
    + change (Call p raw :: evs1 ++ evs) with ([Call p raw] ++ evs1 ++ evs).
      rewrite !dispatched_app, Hd1, Hd. reflexivity.
Qed.

(** X8. When a handle raises on the frame, the ready signal raises the same
    exception, and the handles registered after it are not entered: the
    handles entered are those before it, in order, and the one that raised. *)
Theorem drdy_callback_stops_at_raising_handle
    (state : Z) (w w1 : world) (raw : list Z)
    (pre : list handle) (h : handle) (post : list handle) (e : exn) :
  stream_active (self w) = true ->
  spi_read_multiple_bytes (3 + NUM_CHANNELS * 3) w = (Ok raw, w1) ->
  clientUpdateHandles w = pre ++ h :: post ->
  (forall h', h' ∈ pre -> forall w', is_ok (call_handle h' raw w').1 = true) ->
  (forall w', (call_handle h raw w').1 = Err e) ->
  exists evs : list event,
    (drdy_callback state w).1 = Err e /\
    trace (drdy_callback state w).2 = trace w1 ++ evs /\
    dispatched evs = map (fun h' => (h', raw)) (pre ++ [h]).
Proof.
  intros Ha Hread Hhs Hpre Hh.
  rewrite (drdy_callback_active state w Ha), Hread.
  assert (E : clientUpdateHandles w1 = clientUpdateHandles w).
  { rewrite <- (spi_read_multiple_bytes_handles (3 + NUM_CHANNELS * 3) w), Hread.
    reflexivity. }
  rewrite E, Hhs. apply for_each_stops; assumption.
Qed.

(** ** Flags of the driver across calls *)

Lemma run_calls_preserves (I : world -> Prop) :
  (forall c, preserves I (run_call c)) ->
  forall (calls : list api_call) (w : world), I w -> I (run_calls calls w).
Proof.
  intros Hc calls. induction calls as [| c rest IH]; intros w Hw.
  - exact Hw.
  - cbn. apply IH. apply Hc. exact Hw.
Qed.

Lemma run_calls_preserves_if (I : world -> Prop) (allowed : api_call -> bool) :
  (forall c, allowed c = true -> preserves I (run_call c)) ->
  forall (calls : list api_call) (w : world),
    forallb allowed calls = true -> I w -> I (run_calls calls w).
Proof.
  intros Hc calls. induction calls as [| c rest IH]; intros w Hall Hw.
  - exact Hw.
  - cbn in Hall. apply andb_true_iff in Hall as [Hca Hrest].
    cbn. apply IH; [exact Hrest |]. apply Hc; assumption.
Qed.

(** X9. No call revives a driver or takes its lock away: once [APIAlive] is
    false it stays false, and once [spi_lock] is set it stays set, through
    every sequence of calls. *)
Theorem alive_and_lock_are_one_way (calls : list api_call) (w : world) :
  (APIAlive (self w) = false -> APIAlive (self (run_calls calls w)) = false) /\
  (spi_lock (self w) = true -> spi_lock (self (run_calls calls w)) = true).
Proof.
  split; intros H.
  - apply (run_calls_preserves (fun w' => APIAlive (self w') = false)); [| exact H].
    intros c. destruct c; cbn [run_call]; repeat frame_step;
      intros w' Hw'; first [exact Hw' | reflexivity].
  - apply (run_calls_preserves (fun w' => spi_lock (self w') = true)); [| exact H].
    intros c. destruct c; cbn [run_call]; repeat frame_step;
      intros w' Hw'; first [exact Hw' | reflexivity].
Qed.

(** X10. The sampling rate and the bias flag change through [configure]
    only: every sequence of other calls leaves both as they were. *)
Theorem only_configure_changes_settings (calls : list api_call) (w : world) :
  forallb (fun c => negb (configures c)) calls = true ->
  sampling_rate (self (run_calls calls w)) = sampling_rate (self w) /\
  bias_enabled (self (run_calls calls w)) = bias_enabled (self w).
Proof.
  intros Hall.
  apply (run_calls_preserves_if
           (fun w' => sampling_rate (self w') = sampling_rate (self w) /\
                      bias_enabled (self w') = bias_enabled (self w))
           (fun c => negb (configures c))); [| exact Hall | auto].
  intros c Hc. destruct c; try discriminate Hc; cbn [run_call]; repeat frame_step;
    intros w' Hw'; exact Hw'.
Qed.

(** X11. An active stream stays active until [stop_stream]: no other call
    clears [stream_active], [close_device] included. *)
Theorem only_stop_stream_clears_stream (calls : list api_call) (w : world) :
  forallb (fun c => negb (stops_stream c)) calls = true ->
  stream_active (self w) = true ->
  stream_active (self (run_calls calls w)) = true.
Proof.
  intros Hall Hw.
  apply (run_calls_preserves_if (fun w' => stream_active (self w') = true)
           (fun c => negb (stops_stream c))); [| exact Hall | exact Hw].
  intros c Hc. destruct c; try discriminate Hc; cbn [run_call]; repeat frame_step;
    intros w' Hw'; first [exact Hw' | reflexivity].
Qed.

(** X12. When [stop_stream] raises, which it can only do on real hardware
    (no lock, or a transfer that fails), the stream is not stopped: the
    attributes, the handles and the register image are as before the call. *)
Theorem stop_stream_failure_keeps_stream (w w' : world) (e : exn) :
  stop_stream w = (Err e, w') ->
  STUB_API = false /\
  self w' = self w /\
  clientUpdateHandles w' = clientUpdateHandles w /\
  config_registers w' = config_registers w.
Proof.
  unfold stop_stream, spi_transmit_byte.
  destruct STUB_API; [cbn; discriminate |].
  unfold with_spi_lock, bind, get, spi_xfer.
  destruct (spi_lock (self w)); cbn.
  - destruct (spi_reply (trace w) [SDATAC]); cbn; [discriminate |].
    intros [= _ <-]. auto.
  - intros [= _ <-]. auto.
Qed.

Lemma run_call_stubThread (c : api_call) (w : world) :
  STUB_API = true ->
  stubThread (self (run_call c w).2) = stubThread (self w) || opens c.
Proof.
  intros Hs. destruct c; cbn [opens]; rewrite ?orb_false_r.
  1: { rewrite orb_true_r. unfold run_call, open_device. rewrite Hs.
       destruct w as [a hs regs tr]. reflexivity. }
  all: match goal with
       | |- stubThread (self (run_call ?c ?w0).2) = _ =>
           assert (H : preserves (fun w' => stubThread (self w') = stubThread (self w0))
                         (run_call c))
             by (cbn [run_call]; repeat frame_step; intros w' Hw'; exact Hw');
           apply H; reflexivity
       end.
Qed.

(** X13. In stub mode [close_device] returns exactly when [open_device] was
    called before it on this driver, whatever other calls were made: it joins
    the thread that only [open_device] creates, and raises [AttributeError]
    on a driver that has none.  On real hardware it always returns.  In both
    cases [APIAlive] is false afterwards. *)
Theorem close_device_needs_open (calls : list api_call) :
  (STUB_API = true ->
   is_ok (close_device (run_calls calls new_world)).1 = existsb opens calls) /\
  (STUB_API = false -> is_ok (close_device (run_calls calls new_world)).1 = true) /\
  APIAlive (self (close_device (run_calls calls new_world)).2) = false.
Proof.
  split; [| split].
  - intros Hs.
    assert (Ht : forall cs w,
               stubThread (self (run_calls cs w)) = stubThread (self w) || existsb opens cs).
    { induction cs as [| c cs IH]; intros w; cbn.
      - rewrite orb_false_r. reflexivity.
      - rewrite IH, (run_call_stubThread c w Hs), orb_assoc. reflexivity. }
    specialize (Ht calls new_world). cbn [new_world self new_api stubThread orb] in Ht.
    unfold close_device. rewrite Hs. unfold bind, set_attr, get. cbn [fst snd].
    change (stubThread (self (with_self (set_APIAlive false) (run_calls calls new_world))))
      with (stubThread (self (run_calls calls new_world))).
    rewrite Ht. destruct (existsb opens calls); reflexivity.
  - intros Hs. unfold close_device. rewrite Hs. reflexivity.
  - unfold close_device, bind, set_attr, get. cbn [fst snd].
    destruct STUB_API; [| reflexivity].
    destruct (stubThread _); reflexivity.
Qed.

(** ** Register writes in sequence *)

Lemma put_app (regs : gmap Z Z) (ws1 ws2 : list (Z * Z)) :
  put regs (ws1 ++ ws2) = put (put regs ws1) ws2.
Proof. unfold put. apply foldl_app. Qed.

Lemma put_union (ws : list (Z * Z)) :
  forall regs : gmap Z Z, put regs ws = list_to_map (reverse ws) ∪ regs.
Proof.
  induction ws as [| [a v] ws IH] using rev_ind; intros regs.
  - cbn. rewrite (left_id_L ∅ (∪)). reflexivity.
  - rewrite put_app, reverse_app. cbn. rewrite IH.
    rewrite insert_union_l. reflexivity.
Qed.

Lemma performs_eq {A : Type} (rate : Z) (bias : bool) (m : M A)
    (ws ws' : list (Z * Z)) (txs txs' : list (list Z)) :
  performs rate bias m ws txs -> ws = ws' -> txs = txs' -> performs rate bias m ws' txs'.
Proof. intros H <- <-. exact H. Qed.

Lemma performs_ret {A : Type} (rate : Z) (bias : bool) (a : A) :
  performs rate bias (ret a) [] [].
Proof.
  intros w Hw. exists a, w, []. rewrite app_nil_r.
  repeat split; try reflexivity; try apply Hw. destruct STUB_API; reflexivity.
Qed.

Lemma performs_get {A : Type} (rate : Z) (bias : bool) (f : Ads1298Api -> A) :
  performs rate bias (get f) [] [].
Proof.
  intros w Hw. exists (f (self w)), w, []. rewrite app_nil_r.
  repeat split; try reflexivity; try apply Hw. destruct STUB_API; reflexivity.
Qed.

Lemma performs_emit (rate : Z) (bias : bool) (e : event) :
  transfers [e] = [] -> dispatched [e] = [] -> performs rate bias (emit e) [] [].
Proof.
  intros Ht Hd w Hw. exists tt, (add_event e w), [e].
  repeat split; try reflexivity; try apply Hw; try assumption.
  rewrite Ht. destruct STUB_API; reflexivity.
Qed.

Lemma performs_bind {A B : Type} (rate : Z) (bias : bool) (m : M A) (k : A -> M B)
    (ws1 ws2 : list (Z * Z)) (txs1 txs2 : list (list Z)) :
  performs rate bias m ws1 txs1 ->
  (forall a, performs rate bias (k a) ws2 txs2) ->
  performs rate bias (bind m k) (ws1 ++ ws2) (txs1 ++ txs2).
Proof.
  intros Hm Hk w Hw.
  destruct (Hm w Hw) as (a & w1 & evs1 & E1 & S1 & Hs1 & Hh1 & Hr1 & Ht1 & Hx1 & Hd1).
  destruct (Hk a w1 S1) as (b & w2 & evs2 & E2 & S2 & Hs2 & Hh2 & Hr2 & Ht2 & Hx2 & Hd2).
  exists b, w2, (evs1 ++ evs2). unfold bind. rewrite E1.
  split; [exact E2 |].
  split; [exact S2 |].
  split; [congruence |].
  split; [congruence |].
  split; [rewrite Hr2, Hr1, put_app; reflexivity |].
  split; [rewrite Ht2, Ht1, app_assoc; reflexivity |].
  split.
  - rewrite transfers_app, Hx1, Hx2. destruct STUB_API; reflexivity.
  - rewrite dispatched_app, Hd1, Hd2. reflexivity.
Qed.

Section Settled.

Hypothesis bus_replies : forall (h : list event) (tx : list Z), is_ok (spi_reply h tx) = true.

Variable rate : Z.
Variable bias : bool.

Lemma transmission_settled (tx : list Z) (image : gmap Z Z) (w : world) :
  settled rate bias w ->
  exists evs : list event,
    transmission tx image w =
      (Ok tt, {| self := self w; clientUpdateHandles := clientUpdateHandles w;
                 config_registers := image; trace := trace w ++ evs |}) /\
    transfers evs = (if STUB_API then [] else [tx]) /\
    dispatched evs = [].
Proof.
  intros [[Hmode Hrate] Hbias]. unfold transmission.
  destruct STUB_API eqn:Es.
  - exists []. rewrite app_nil_r. auto.
  - destruct Hmode as [Hs | Hl]; [discriminate |]. rewrite Hl.
    pose proof (bus_replies (trace w) tx) as Hr.
    destruct (spi_reply (trace w) tx); [| discriminate].
    exists [SpiXfer tx spi_speed spi_pause]. auto.
Qed.

Lemma performs_spi_write_single_reg (reg byte : Z) :
  performs rate bias (spi_write_single_reg reg byte)
    [(reg, byte)] [[Z.lor reg 0x40; 0x00; byte]].
Proof.
  intros w Hw. rewrite spi_write_single_reg_eq.
  destruct (transmission_settled [Z.lor reg 0x40; 0x00; byte]
              (<[reg := byte]> (config_registers w)) w Hw) as (evs & E & Ht & Hd).
  eexists tt, _, evs. split; [exact E |].
  repeat split; try apply Hw; assumption.
Qed.

(** The loop of [spi_write_multiple_reg], from index [k] on, as a sequence
    of writes. *)
Lemma write_loop_put (byte_array : list Z) (start_reg : Z) (j : nat) :
  forall (k : nat) (w : world),
    (k + j = length byte_array)%nat ->
    for_each (zip (seq k j) (map (fun i => start_reg + Z.of_nat i) (seq k j)))
      (fun '(i, addr) => v <- lift (index byte_array i) ;; set_register addr v) w
    = (Ok tt,
       with_registers
         (fun regs => put regs (zip (map (fun i => start_reg + Z.of_nat i) (seq k j))
                                    (drop k byte_array)))
         w).
Proof.
  induction j as [| j IH]; intros k w Hlen.
  - destruct w. reflexivity.
  - destruct (lookup_lt_is_Some_2 byte_array k ltac:(lia)) as [v Hv].
    cbn [seq map zip zip_with for_each]. unfold bind at 1. unfold bind at 1.
    unfold lift, index. rewrite Hv. unfold set_register at 1.
    rewrite (IH (S k)) by lia.
    rewrite (drop_S byte_array v k Hv). destruct w. reflexivity.
Qed.

Lemma performs_spi_write_multiple_reg (start_reg : Z) (byte_array : list Z) :
  performs rate bias (spi_write_multiple_reg start_reg byte_array)
    (zip (map (fun i => start_reg + Z.of_nat i) (seq 0 (length byte_array))) byte_array)
    [Z.lor start_reg 0x40 :: Z.of_nat (length byte_array) - 1 :: byte_array].
Proof.
  intros w Hw.
  assert (E : spi_write_multiple_reg start_reg byte_array w =
              transmission
                (Z.lor start_reg 0x40 :: Z.of_nat (length byte_array) - 1 :: byte_array)
                (put (config_registers w)
                   (zip (map (fun i => start_reg + Z.of_nat i) (seq 0 (length byte_array)))
                        byte_array)) w).
  { unfold spi_write_multiple_reg, bind at 1, enumerate.
    rewrite range_from, length_map, length_seq.
    rewrite (write_loop_put byte_array start_reg (length byte_array) 0 w eq_refl).
    rewrite drop_0. destruct w as [a hs regs tr].
    unfold transmission. destruct STUB_API; [reflexivity |].
    unfold with_spi_lock, bind, get, spi_xfer. cbn.
    destruct (spi_lock a); cbn; [| reflexivity].
    destruct (spi_reply tr _); reflexivity. }
  rewrite E.
  destruct (transmission_settled
              (Z.lor start_reg 0x40 :: Z.of_nat (length byte_array) - 1 :: byte_array)
              (put (config_registers w)
                 (zip (map (fun i => start_reg + Z.of_nat i) (seq 0 (length byte_array)))
                      byte_array)) w Hw) as (evs & Et & Ht & Hd).
  eexists tt, _, evs. split; [exact Et |].
  repeat split; try apply Hw; assumption.
Qed.

Lemma performs_spi_transmit_byte (byte : Z) :
  performs rate bias (spi_transmit_byte byte) [] [[byte]].
Proof.
  intros w Hw. pose proof Hw as [[Hmode Hrate] Hbias]. unfold spi_transmit_byte.
  destruct STUB_API eqn:Es.
  - exists tt, w, []. rewrite app_nil_r.
    repeat split; try reflexivity; try apply Hw; try (left; exact Es).
  - destruct Hmode as [Hs | Hl]; [discriminate |].
    unfold with_spi_lock, bind, get, spi_xfer. rewrite Hl.
    pose proof (bus_replies (trace w) [byte]) as Hr.
    destruct (spi_reply (trace w) [byte]); [| discriminate].
    exists tt, (add_event (SpiXfer [byte] spi_speed spi_pause) w),
      [SpiXfer [byte] spi_speed spi_pause].
    repeat split; try reflexivity; try apply Hw; try (right; exact Hl).
Qed.

Lemma performs_set_sampling_rate :
  rate = 500 \/ rate = 1000 \/ rate = 2000 ->
  performs rate bias set_sampling_rate
    [(REG_CONFIG1, rate_code rate)] [[0x41; 0x00; rate_code rate]].
Proof.
  intros Hsup w Hw.
  assert (E : set_sampling_rate w = spi_write_single_reg REG_CONFIG1 (rate_code rate) w).
  { rewrite set_sampling_rate_cases. cbv zeta. unfold rate_code.
    destruct Hw as [[_ ->] _].
    destruct (Z.eqb_spec rate 2000); [reflexivity |].
    destruct (Z.eqb_spec rate 1000); [reflexivity |].
    destruct (Z.eqb_spec rate 500); [reflexivity |]. exfalso. lia. }
  rewrite E. exact (performs_spi_write_single_reg REG_CONFIG1 (rate_code rate) w Hw).
Qed.

Ltac performs_step :=
  lazymatch goal with
  | |- performs _ _ (bind _ _) _ _ => eapply performs_bind; [| intros ?]
  | |- performs _ _ (spi_write_single_reg _ _) _ _ => eapply performs_spi_write_single_reg
  | |- performs _ _ (spi_write_multiple_reg _ _) _ _ => eapply performs_spi_write_multiple_reg
  | |- performs _ _ (spi_transmit_byte _) _ _ => eapply performs_spi_transmit_byte
  | |- performs _ _ set_sampling_rate _ _ => eapply performs_set_sampling_rate; assumption
  | |- performs _ _ (emit _) _ _ => eapply performs_emit; reflexivity
  | |- performs _ _ (get _) _ _ => eapply performs_get
  | |- performs _ _ (ret _) _ _ => eapply performs_ret
  | |- performs _ _ (if true then _ else _) _ _ => cbv iota
  | |- performs _ _ (if false then _ else _) _ _ => cbv iota
  | |- performs _ _ ?m _ _ => let h := head_of m in unfold h
  end.

Lemma performs_configure_all_channels (config : Z) :
  performs rate bias (configure_all_channels config)
    [(0x05, config); (0x06, config); (0x07, config); (0x08, config);
     (0x09, config); (0x0A, config); (0x0B, config); (0x0C, config)]
    [[0x45; 7; config; config; config; config; config; config; config; config]].
Proof. eapply performs_eq; [repeat performs_step | reflexivity | reflexivity]. Qed.

Lemma performs_reset_ongoing_state :
  rate = 500 \/ rate = 1000 \/ rate = 2000 ->
  performs rate bias reset_ongoing_state
    [(0x03, 0x48); (0x01, rate_code rate); (0x02, 0xC0); (0x0D, 0x00); (0x0E, 0x00);
     (0x05, 0x01); (0x06, 0x01); (0x07, 0x01); (0x08, 0x01);
     (0x09, 0x01); (0x0A, 0x01); (0x0B, 0x01); (0x0C, 0x01)]
    [[0x11]; [0x43; 0x00; 0x48]; [0x41; 0x00; rate_code rate]; [0x42; 0x00; 0xC0];
     [0x4D; 0x00; 0x00]; [0x4E; 0x00; 0x00];
     [0x45; 7; 1; 1; 1; 1; 1; 1; 1; 1]].
Proof.
  intros Hsup. eapply performs_eq; [repeat performs_step | reflexivity | reflexivity].
Qed.

Lemma performs_setup_test_mode :
  performs rate bias setup_test_mode
    [(0x02, 0x11); (0x03, 0xC0); (0x04, 0x00); (0x0F, 0x00); (0x10, 0x00);
     (0x11, 0x00); (0x17, 0x00);
     (0x05, 0x05); (0x06, 0x05); (0x07, 0x05); (0x08, 0x05);
     (0x09, 0x05); (0x0A, 0x05); (0x0B, 0x05); (0x0C, 0x05)]
    [[0x11]; [0x42; 0x00; 0x11]; [0x43; 0x00; 0xC0]; [0x44; 0x00; 0x00];
     [0x4F; 0x00; 0x00]; [0x50; 0x00; 0x00]; [0x51; 0x00; 0x00]; [0x57; 0x00; 0x00];
     [0x45; 7; 5; 5; 5; 5; 5; 5; 5; 5]].
Proof. eapply performs_eq; [repeat performs_step | reflexivity | reflexivity]. Qed.

Lemma performs_bias_writes :
  performs rate bias
    (emit (Print (Text "Configuring bias registers")) ;;
     let reg_value := 2 ^ Z.of_nat NUM_CHANNELS - 1 in
     spi_write_single_reg REG_BIAS_SENSP reg_value ;;
     spi_write_single_reg REG_BIAS_SENSN reg_value ;;
     spi_write_single_reg REG_CONFIG3 0xEC)%monad
    [(0x0D, 0xFF); (0x0E, 0xFF); (0x03, 0xEC)]
    [[0x4D; 0x00; 0xFF]; [0x4E; 0x00; 0xFF]; [0x43; 0x00; 0xEC]].
Proof.
  cbv zeta. eapply performs_eq; [repeat performs_step | reflexivity | reflexivity].
Qed.

Lemma performs_setup_bias_drive :
  performs rate bias setup_bias_drive
    (if bias then [(0x0D, 0xFF); (0x0E, 0xFF); (0x03, 0xEC)] else [])
    (if bias then [[0x4D; 0x00; 0xFF]; [0x4E; 0x00; 0xFF]; [0x43; 0x00; 0xEC]] else []).
Proof.
  intros w Hw.
  pose proof (performs_bias_writes w Hw) as Hbody.
  pose proof (performs_ret rate bias tt w Hw) as Hret.
  pose proof Hw as [_ Hb].
  unfold setup_bias_drive, bind at 1, get. rewrite Hb.
  destruct bias; cbn [negb]; [exact Hbody | exact Hret].
Qed.

Ltac performs_more :=
  lazymatch goal with
  | |- performs _ _ setup_bias_drive _ _ => eapply performs_setup_bias_drive
  | _ => performs_step
  end.

Lemma performs_setup_exg_mode :
  performs rate bias setup_exg_mode
    ([(0x02, 0x00);
      (0x05, 0x60); (0x06, 0x60); (0x07, 0x60); (0x08, 0x60);
      (0x09, 0x60); (0x0A, 0x60); (0x0B, 0x60); (0x0C, 0x60);
      (0x0D, 0xFF); (0x0E, 0x01); (0x18, 0x0A);
      (0x04, 0x93); (0x0F, 0xFF); (0x10, 0xFF); (0x11, 0xFF); (0x17, 0x02)]
       ++ (if bias then [(0x0D, 0xFF); (0x0E, 0xFF); (0x03, 0xEC)] else []))
    ([[0x42; 0x00; 0x00];
      [0x45; 7; 0x60; 0x60; 0x60; 0x60; 0x60; 0x60; 0x60; 0x60];
      [0x4D; 0x00; 0xFF]; [0x4E; 0x00; 0x01]; [0x58; 0x00; 0x0A];
      [0x44; 0x00; 0x93]; [0x4F; 0x00; 0xFF]; [0x50; 0x00; 0xFF]; [0x51; 0x00; 0xFF];
      [0x57; 0x00; 0x02]]
       ++ (if bias then [[0x4D; 0x00; 0xFF]; [0x4E; 0x00; 0xFF]; [0x43; 0x00; 0xEC]]
           else [])).
Proof. eapply performs_eq; [repeat performs_more | reflexivity | reflexivity]. Qed.

Lemma performs_reset_prefix :
  performs rate bias (spi_transmit_byte SDATAC ;; spi_write_single_reg REG_CONFIG3 0x48)%monad
    [(0x03, 0x48)] [[0x11]; [0x43; 0x00; 0x48]].
Proof. eapply performs_eq; [repeat performs_step | reflexivity | reflexivity]. Qed.

End Settled.

Lemma settled_intro (w : world) :
  STUB_API = true \/ spi_lock (self w) = true ->
  settled (sampling_rate (self w)) (bias_enabled (self w)) w.
Proof. intros H. repeat split. exact H. Qed.

(** X14. From a driver whose transfers go through, with the rate 500, 1000
    or 2000, [reset_ongoing_state] returns after these writes: CONFIG3 =
    0x48, CONFIG1 = 0x86, 0x85 or 0x84, CONFIG2 = 0xC0, both bias sense
    registers 0 and the eight channel registers 0x01; every other register of
    the image keeps its value.  On real hardware the transfers are SDATAC,
    five single writes and one block write of the eight channels, in this
    order; in stub mode there is none. *)
Theorem reset_ongoing_state_effect (w : world) :
  (forall h tx, is_ok (spi_reply h tx) = true) ->
  STUB_API = true \/ spi_lock (self w) = true ->
  sampling_rate (self w) = 500 \/ sampling_rate (self w) = 1000 \/
  sampling_rate (self w) = 2000 ->
  exists (w' : world) (evs : list event),
    reset_ongoing_state w = (Ok tt, w') /\
    self w' = self w /\
    clientUpdateHandles w' = clientUpdateHandles w /\
    config_registers w' =
      list_to_map
        [(0x01, rate_code (sampling_rate (self w))); (0x02, 0xC0); (0x03, 0x48);
         (0x05, 0x01); (0x06, 0x01); (0x07, 0x01); (0x08, 0x01);
         (0x09, 0x01); (0x0A, 0x01); (0x0B, 0x01); (0x0C, 0x01);
         (0x0D, 0x00); (0x0E, 0x00)] ∪ config_registers w /\
    trace w' = trace w ++ evs /\
    transfers evs =
      (if STUB_API then []
       else [[0x11]; [0x43; 0x00; 0x48]; [0x41; 0x00; rate_code (sampling_rate (self w))];
             [0x42; 0x00; 0xC0]; [0x4D; 0x00; 0x00]; [0x4E; 0x00; 0x00];
             [0x45; 7; 1; 1; 1; 1; 1; 1; 1; 1]]).
Proof.
  intros Hbus Hmode Hsup.
  destruct (performs_reset_ongoing_state Hbus _ (bias_enabled (self w)) Hsup w
              (settled_intro w Hmode))
    as ([] & w' & evs & E & _ & Hs & Hh & Hr & Ht & Hx & _).
  exists w', evs. repeat (split; [assumption |]). split; [| split; assumption].
  rewrite Hr, put_union. reflexivity.
Qed.

(** X15. With a rate outside 500, 1000 and 2000 [reset_ongoing_state]
    raises only at its third step: SDATAC has been sent and CONFIG3 has been
    written (0x48 in the image) when the [ValueError] is raised. *)
Theorem reset_ongoing_state_rejects_rate_late (w : world) :
  (forall h tx, is_ok (spi_reply h tx) = true) ->
  STUB_API = true \/ spi_lock (self w) = true ->
  sampling_rate (self w) <> 500 -> sampling_rate (self w) <> 1000 ->
  sampling_rate (self w) <> 2000 ->
  exists (w' : world) (evs : list event),
    reset_ongoing_state w = (Err (ValueError "Invalid sample rate"), w') /\
    self w' = self w /\
    config_registers w' = <[REG_CONFIG3 := 0x48]> (config_registers w) /\
    trace w' = trace w ++ evs /\
    transfers evs = (if STUB_API then [] else [[0x11]; [0x43; 0x00; 0x48]]).
Proof.
  intros Hbus Hmode N1 N2 N3.
  destruct (performs_reset_prefix Hbus _ (bias_enabled (self w)) w (settled_intro w Hmode))
    as ([] & w' & evs & E & _ & Hs & _ & Hr & Ht & Hx & _).
  exists w', evs.
  assert (Eb : (spi_transmit_byte SDATAC ;; spi_write_single_reg REG_CONFIG3 0x48)%monad w
               = (Ok tt, w')) by exact E.
  unfold bind in Eb.
  unfold reset_ongoing_state, bind at 1.
  destruct (spi_transmit_byte SDATAC w) as [[[] | e0] w0]; [| discriminate].
  unfold bind at 1. rewrite Eb.
  unfold bind at 1. rewrite set_sampling_rate_cases. cbv zeta. rewrite Hs.
  destruct (Z.eqb_spec (sampling_rate (self w)) 2000); [contradiction |].
  destruct (Z.eqb_spec (sampling_rate (self w)) 1000); [contradiction |].
  destruct (Z.eqb_spec (sampling_rate (self w)) 500); [contradiction |].
  repeat split; assumption.
Qed.

(** X16. [start_test_stream] on a driver whose transfers go through, with
    the rate 500, 1000 or 2000, raises at [set_start] with the device
    configured for the test signal and the stream marked active: in the
    image CONFIG1 holds the rate code, CONFIG2 0x11, CONFIG3 0xC0, the five
    lead-off registers and the two bias sense registers 0, and the eight
    channel registers 0x05.  On real hardware it has made sixteen transfers,
    those of [reset_ongoing_state] then those of [setup_test_mode], and
    RDATAC is not among them. *)
Theorem start_test_stream_effect (w : world) :
  (forall h tx, is_ok (spi_reply h tx) = true) ->
  STUB_API = true \/ spi_lock (self w) = true ->
  sampling_rate (self w) = 500 \/ sampling_rate (self w) = 1000 \/
  sampling_rate (self w) = 2000 ->
  exists (w' : world) (evs : list event),
    start_test_stream w = (Err (AttributeError "START_PIN"), w') /\
    self w' = set_stream_active true (self w) /\
    clientUpdateHandles w' = clientUpdateHandles w /\
    config_registers w' =
      list_to_map
        [(0x01, rate_code (sampling_rate (self w))); (0x02, 0x11); (0x03, 0xC0);
         (0x04, 0x00);
         (0x05, 0x05); (0x06, 0x05); (0x07, 0x05); (0x08, 0x05);
         (0x09, 0x05); (0x0A, 0x05); (0x0B, 0x05); (0x0C, 0x05);
         (0x0D, 0x00); (0x0E, 0x00); (0x0F, 0x00); (0x10, 0x00); (0x11, 0x00);
         (0x17, 0x00)] ∪ config_registers w /\
    trace w' = trace w ++ evs /\
    transfers evs =
      (if STUB_API then []
       else [[0x11]; [0x43; 0x00; 0x48]; [0x41; 0x00; rate_code (sampling_rate (self w))];
             [0x42; 0x00; 0xC0]; [0x4D; 0x00; 0x00]; [0x4E; 0x00; 0x00];
             [0x45; 7; 1; 1; 1; 1; 1; 1; 1; 1];
             [0x11]; [0x42; 0x00; 0x11]; [0x43; 0x00; 0xC0]; [0x44; 0x00; 0x00];
             [0x4F; 0x00; 0x00]; [0x50; 0x00; 0x00]; [0x51; 0x00; 0x00];
             [0x57; 0x00; 0x00]; [0x45; 7; 5; 5; 5; 5; 5; 5; 5; 5]]).
Proof.
  intros Hbus Hmode Hsup.
  pose proof (performs_bind _ _ _ _ _ _ _ _
                (performs_reset_ongoing_state Hbus _ (bias_enabled (self w)) Hsup)
                (fun _ => performs_setup_test_mode Hbus _ (bias_enabled (self w)))
                w (settled_intro w Hmode))
    as ([] & w2 & evs & E & _ & Hs & Hh & Hr & Ht & Hx & _).
  exists (with_self (set_stream_active true) w2), evs.
  unfold bind in E.
  unfold start_test_stream, bind at 1.
  destruct (reset_ongoing_state w) as [[[] | e0] w1]; [| discriminate].
  unfold bind at 1. rewrite E.
  split; [reflexivity |]. cbn [self with_self clientUpdateHandles config_registers trace].
  split; [rewrite Hs; reflexivity |].
  split; [exact Hh |].
  split; [rewrite Hr, put_union; reflexivity |].
  split; [exact Ht |].
  rewrite Hx. destruct STUB_API; reflexivity.
Qed.

(** X17. [start_exg_stream] on a driver whose transfers go through, with
    the rate 500, 1000 or 2000, raises at [set_start] with the device
    configured for ExG and the stream marked active: the eight channel
    registers hold 0x60 (gain 12), CONFIG2 0, the lead-off registers 0x93,
    0xFF, 0xFF, 0xFF and CONFIG4 0x02, WCT1 0x0A and BIAS_SENSP 0xFF; the
    bias flag decides CONFIG3 (0xEC when set, else the 0x48 of the reset) and
    BIAS_SENSN (0xFF when set, else 0x01). *)
Theorem start_exg_stream_effect (w : world) :
  (forall h tx, is_ok (spi_reply h tx) = true) ->
  STUB_API = true \/ spi_lock (self w) = true ->
  sampling_rate (self w) = 500 \/ sampling_rate (self w) = 1000 \/
  sampling_rate (self w) = 2000 ->
  exists w' : world,
    start_exg_stream w = (Err (AttributeError "START_PIN"), w') /\
    self w' = set_stream_active true (self w) /\
    clientUpdateHandles w' = clientUpdateHandles w /\
    config_registers w' =
      list_to_map
        [(0x01, rate_code (sampling_rate (self w))); (0x02, 0x00);
         (0x03, if bias_enabled (self w) then 0xEC else 0x48);
         (0x04, 0x93);
         (0x05, 0x60); (0x06, 0x60); (0x07, 0x60); (0x08, 0x60);
         (0x09, 0x60); (0x0A, 0x60); (0x0B, 0x60); (0x0C, 0x60);
         (0x0D, 0xFF); (0x0E, if bias_enabled (self w) then 0xFF else 0x01);
         (0x0F, 0xFF); (0x10, 0xFF); (0x11, 0xFF); (0x17, 0x02); (0x18, 0x0A)]
        ∪ config_registers w.
Proof.
  intros Hbus Hmode Hsup.
  pose proof (performs_bind _ _ _ _ _ _ _ _
                (performs_reset_ongoing_state Hbus _ (bias_enabled (self w)) Hsup)
                (fun _ => performs_setup_exg_mode Hbus _ (bias_enabled (self w)))
                w (settled_intro w Hmode))
    as ([] & w2 & evs & E & _ & Hs & Hh & Hr & _).
  exists (with_self (set_stream_active true) w2).
  unfold bind in E.
  unfold start_exg_stream, bind at 1.
  destruct (reset_ongoing_state w) as [[[] | e0] w1]; [| discriminate].
  unfold bind at 1. rewrite E.
  split; [reflexivity |]. cbn [self with_self clientUpdateHandles config_registers].
  split; [rewrite Hs; reflexivity |].
  split; [exact Hh |].
  rewrite Hr, put_union. destruct (bias_enabled (self w)); reflexivity.
Qed.

Lemma configure_idle (sampling_rate_arg : option Z) (bias_enabled_arg : option bool)
    (w : world) :
  stream_active (self w) = false ->
  (configure sampling_rate_arg bias_enabled_arg w).1 = Ok tt /\
  self (configure sampling_rate_arg bias_enabled_arg w).2 =
    {| spi_lock := spi_lock (self w);
       stubThread := stubThread (self w);
       APIAlive := APIAlive (self w);
       nb_channels := nb_channels (self w);
       sampling_rate := default (sampling_rate (self w)) sampling_rate_arg;
       bias_enabled := default (bias_enabled (self w)) bias_enabled_arg;
       stream_active := false |}.
Proof.
  destruct w as [[l t a n r b s] hs regs tr]. cbn. intros ->.
  unfold configure, bind, get, py_assert. cbn.
  destruct sampling_rate_arg, bias_enabled_arg; split; reflexivity.
Qed.

(** X18. A rate given to [configure] reaches CONFIG1: on an idle driver
    whose transfers go through, [configure] with the rate 500, 1000 or 2000
    followed by [set_sampling_rate] returns and leaves 0x86, 0x85 or 0x84 at
    CONFIG1 in the register image. *)
Theorem configured_rate_reaches_config1
    (v : Z) (bias_enabled_arg : option bool) (w : world) :
  (forall h tx, is_ok (spi_reply h tx) = true) ->
  STUB_API = true \/ spi_lock (self w) = true ->
  stream_active (self w) = false ->
  v = 500 \/ v = 1000 \/ v = 2000 ->
  let w1 := (configure (Some v) bias_enabled_arg w).2 in
  is_ok (set_sampling_rate w1).1 = true /\
  config_registers (set_sampling_rate w1).2 !! REG_CONFIG1 =
    Some (if v =? 500 then 0x86 else if v =? 1000 then 0x85 else 0x84).
Proof.
  intros Hbus Hmode Hidle Hv w1.
  assert (Hw1 : settled v (bias_enabled (self w1)) w1).
  { destruct (configure_idle (Some v) bias_enabled_arg w Hidle) as [_ Hself].
    unfold w1. repeat split; rewrite ?Hself; [exact Hmode | reflexivity]. }
  destruct (performs_set_sampling_rate Hbus v (bias_enabled (self w1)) Hv w1 Hw1)
    as ([] & w' & evs & E & _ & _ & _ & Hr & _).
  rewrite E. cbn [fst snd]. split; [reflexivity |].
  rewrite Hr. cbn [put foldl fst snd]. rewrite lookup_insert_eq. f_equal.
  unfold rate_code. destruct Hv as [-> | [-> | ->]]; reflexivity.
Qed.

(** X19. [configure_all_channels] puts the same value in the eight channel
    registers 0x05..0x0C and in no other; on real hardware it makes one block
    write, [0x45, 7] followed by the value eight times. *)
Theorem configure_all_channels_effect (config : Z) (w : world) :
  (forall h tx, is_ok (spi_reply h tx) = true) ->
  STUB_API = true \/ spi_lock (self w) = true ->
  exists (w' : world) (evs : list event),
    configure_all_channels config w = (Ok tt, w') /\
    (forall addr : Z,
        config_registers w' !! addr =
          if decide (0x05 <= addr <= 0x0C) then Some config
          else config_registers w !! addr) /\
    trace w' = trace w ++ evs /\
    transfers evs =
      (if STUB_API then []
       else [[0x45; 7; config; config; config; config; config; config; config; config]]).
Proof.
  intros Hbus Hmode.
  destruct (performs_configure_all_channels Hbus _ (bias_enabled (self w)) config w
              (settled_intro w Hmode))
    as ([] & w' & evs & E & _ & _ & _ & Hr & Ht & Hx & _).
  exists w', evs. split; [exact E |]. split; [| split; assumption].
  intros addr. rewrite Hr. cbn [put foldl fst snd].
  case_decide as Hin.
  - assert (Hcases : addr = 5 \/ addr = 6 \/ addr = 7 \/ addr = 8 \/
                     addr = 9 \/ addr = 10 \/ addr = 11 \/ addr = 12) by lia.
    repeat (destruct Hcases as [-> | Hcases]); try subst addr;
      repeat first [rewrite lookup_insert_eq; reflexivity
                   | rewrite lookup_insert_ne by discriminate].
  - rewrite !lookup_insert_ne by lia. reflexivity.
Qed.

(** X20. [spi_write_multiple_reg] with no value leaves the register image as
    it was and still transmits: the transaction is the command byte followed
    by the count [len(byte_array) - 1], which is -1. *)
Theorem spi_write_multiple_reg_empty (start_reg : Z) (w : world) :
  spi_write_multiple_reg start_reg [] w =
    transmission [Z.lor start_reg 0x40; -1] (config_registers w) w.
Proof.
  unfold spi_write_multiple_reg, bind at 1, enumerate.
  change (length (@nil Z)) with 0%nat.
  rewrite (range_from start_reg 0). cbn [seq map length zip zip_with for_each].
  destruct w as [a hs regs tr].
  unfold transmission, ret. destruct STUB_API; [reflexivity |].
  unfold with_spi_lock, bind, get, spi_xfer. cbn.
  destruct (spi_lock a); cbn; [| reflexivity].
  destruct (spi_reply tr _); reflexivity.
Qed.

(** ** The register image stays within the register map *)

Lemma image_spi_write_single_reg (reg byte : Z) :
  writable reg -> 0 <= byte <= 255 ->
  preserves image_in_map (spi_write_single_reg reg byte).
Proof.
  intros Hreg Hbyte w Hw addr v.
  rewrite spi_write_single_reg_eq, transmission_image.
  destruct (decide (reg = addr)) as [<- | Hne].
  - rewrite lookup_insert_eq. intros [= <-]. auto.
  - rewrite lookup_insert_ne by exact Hne. apply Hw.
Qed.

Lemma image_spi_write_multiple_reg (start_reg : Z) (byte_array : list Z) :
  (forall (i : nat) (v : Z),
      byte_array !! i = Some v -> writable (start_reg + Z.of_nat i) /\ 0 <= v <= 255) ->
  preserves image_in_map (spi_write_multiple_reg start_reg byte_array).
Proof.
  intros Hall w Hw addr v.
  destruct (spi_write_multiple_reg_eq start_reg byte_array w) as [image [Himage E]].
  rewrite E, transmission_image, Himage.
  case_decide as Hin.
  - intros Hv. specialize (Hall _ _ Hv).
    rewrite Z2Nat.id in Hall by lia.
    replace (start_reg + (addr - start_reg)) with addr in Hall by lia. exact Hall.
  - apply Hw.
Qed.

Lemma image_configure_all_channels (config : Z) :
  0 <= config <= 255 -> preserves image_in_map (configure_all_channels config).
Proof.
  intros Hc. unfold configure_all_channels. apply image_spi_write_multiple_reg.
  intros i v Hv. apply lookup_replicate in Hv as [-> Hi].
  unfold writable, REG_CHnSET_BASE, NUM_CHANNELS in *. lia.
Qed.

Lemma image_set_sampling_rate : preserves image_in_map set_sampling_rate.
Proof.
  intros w Hw. rewrite set_sampling_rate_cases. cbv zeta.
  destruct (sampling_rate (self w) =? 2000);
    [apply image_spi_write_single_reg; [unfold writable, REG_CONFIG1 | |]; auto; lia |].
  destruct (sampling_rate (self w) =? 1000);
    [apply image_spi_write_single_reg; [unfold writable, REG_CONFIG1 | |]; auto; lia |].
  destruct (sampling_rate (self w) =? 500);
    [apply image_spi_write_single_reg; [unfold writable, REG_CONFIG1 | |]; auto; lia |].
  exact Hw.
Qed.

Ltac image_side :=
  first
    [ solve [ intros ? H; exact H ]
    | solve [ unfold writable;
              cbv [REG_CONFIG1 REG_CONFIG2 REG_CONFIG3 REG_CONFIG4 REG_LOFF REG_CHnSET_BASE
                   REG_BIAS_SENSP REG_BIAS_SENSN REG_LOFF_SENSP REG_LOFF_SENSN
                   REG_LOFF_FLIP REG_WCT1 NUM_CHANNELS];
              change (2 ^ Z.of_nat 8 - 1) with 255; lia ] ].

Ltac image_step :=
  lazymatch goal with
  | |- preserves _ (spi_write_single_reg _ _) =>
      apply image_spi_write_single_reg; image_side
  | |- preserves _ (configure_all_channels _) =>
      apply image_configure_all_channels; lia
  | |- preserves _ set_sampling_rate => apply image_set_sampling_rate
  | |- preserves _ (let _ := _ in _) => cbv zeta
  | |- preserves _ (emit _) => apply preserves_emit; image_side
  | |- preserves _ (set_attr _) => apply preserves_set_attr; image_side
  | |- preserves _ (spi_xfer _) => apply preserves_spi_xfer; image_side
  | |- preserves _ (register_client _) => apply preserves_register_client; image_side
  | _ => frame_step
  end.

Lemma image_run_call (c : api_call) : preserves image_in_map (run_call c).
Proof. destruct c; cbn [run_call]; repeat image_step. Qed.

(** X21. The register image never leaves the register map: through every
    sequence of calls its keys are addresses the driver writes (0x01 to 0x11,
    0x17 and 0x18; never the ID register 0x00) and its values are bytes. *)
Theorem register_image_in_map (calls : list api_call) (w : world) :
  (forall addr v : Z,
      config_registers w !! addr = Some v ->
      (0x01 <= addr <= 0x11 \/ addr = 0x17 \/ addr = 0x18) /\ 0 <= v <= 255) ->
  forall addr v : Z,
    config_registers (run_calls calls w) !! addr = Some v ->
    (0x01 <= addr <= 0x11 \/ addr = 0x17 \/ addr = 0x18) /\ 0 <= v <= 255.
Proof.
  intros Hw. exact (run_calls_preserves image_in_map image_run_call calls w Hw).
Qed.

(** ** The validation run *)

(** X22. The validation run [_test] raises at [open_device], in both modes
    and for both signals: it prints its first line and opens the device, and
    stops at the [AttributeError] of [self.nRESET_PIN].  No handle is
    registered, no register written and no stream started. *)
Theorem validation_run_raises_at_open_device (use_test_signal : bool) (w : world) :
  exists w' : world,
    _test use_test_signal w = (Err (AttributeError "nRESET_PIN"), w') /\
    clientUpdateHandles w' = clientUpdateHandles w /\
    config_registers w' = config_registers w /\
    stream_active (self w') = false /\
    trace w' =
      trace w ++ Print (Text "Starting validation sequence") :: open_device_events.
Proof.
  unfold _test, open_device, open_device_events. destruct w as [a hs regs tr].
  destruct STUB_API; eexists; (split; [reflexivity |]); cbn;
    rewrite <- ?app_assoc; auto.
Qed.

(** ** Ready signals on a driver reached by calls *)







(** C9. A ready signal on an active stream, once its frame [raw] is read,
    enters the handles of [clientUpdateHandles] inside the call, one after
    the other in the order of the list, each at most once, with that frame.
    A handle that raises ends the call with its exception, and the handles
    after it are not entered; when the handles return, the call returns and
    every handle has been entered once.  The list only grows at its end:
    [register_client] appends its argument and no other call changes it. *)
Theorem clients_called_in_order_until_raise :
  (forall (state : Z) (w w1 : world) (raw : list Z),
      stream_active (self w) = true ->
      spi_read_multiple_bytes (3 + NUM_CHANNELS * 3) w = (Ok raw, w1) ->
      exists (n : nat) (evs : list event),
        (n <= length (clientUpdateHandles w))%nat /\
        trace (drdy_callback state w).2 = trace w1 ++ evs /\
        dispatched evs = map (fun h => (h, raw)) (take n (clientUpdateHandles w)) /\
        (is_ok (drdy_callback state w).1 = true -> n = length (clientUpdateHandles w)) /\
        ((forall h, h ∈ clientUpdateHandles w ->
                    forall w', is_ok (call_handle h raw w').1 = true) ->
         is_ok (drdy_callback state w).1 = true)) /\
  (forall (state : Z) (w w1 : world) (raw : list Z)
          (pre : list handle) (h : handle) (post : list handle) (e : exn),
      stream_active (self w) = true ->
      spi_read_multiple_bytes (3 + NUM_CHANNELS * 3) w = (Ok raw, w1) ->
      clientUpdateHandles w = pre ++ h :: post ->
      (forall h', h' ∈ pre -> forall w', is_ok (call_handle h' raw w').1 = true) ->
      (forall w', (call_handle h raw w').1 = Err e) ->
      exists evs : list event,
        (drdy_callback state w).1 = Err e /\
        trace (drdy_callback state w).2 = trace w1 ++ evs /\
        dispatched evs = map (fun h' => (h', raw)) (pre ++ [h])) /\
  (forall (h : handle) (w : world),
      register_client h w = (Ok tt, with_handles (fun hs => hs ++ [h]) w)) /\
  (forall (c : api_call) (w : world),
      clientUpdateHandles (run_call c w).2 =
        clientUpdateHandles w ++ match c with RegisterClient h => [h] | _ => [] end).
Proof.
  assert (Hhs : forall (w w1 : world) (raw : list Z),
             spi_read_multiple_bytes (3 + NUM_CHANNELS * 3) w = (Ok raw, w1) ->
             clientUpdateHandles w1 = clientUpdateHandles w).
  { intros w w1 raw Hread.
    rewrite <- (spi_read_multiple_bytes_handles (3 + NUM_CHANNELS * 3) w), Hread.
    reflexivity. }
  split; [| split; [| split]].
  - intros state w w1 raw Ha Hread.
    rewrite (drdy_callback_active state w Ha), Hread, (Hhs w w1 raw Hread).
    destruct (for_each_dispatch raw (clientUpdateHandles w) w1)
      as (n & evs & Hn & Htr & Hd & _ & Hall).
    exists n, evs. repeat (split; [assumption |]).
    intros Hret. apply for_each_returns. exact Hret.
  - intros state w w1 raw pre h post e Ha Hread Hlist Hpre Hh.
    rewrite (drdy_callback_active state w Ha), Hread, (Hhs w w1 raw Hread), Hlist.
    apply for_each_stops; assumption.
  - reflexivity.
  - apply run_call_handles.
Qed.

End Driver.

(** ** The statements at sample inputs *)

(** A frame in sync whose channel bytes are zero prints eight samples 0.0
    and no lead-off flag. *)
Example default_callback_zero_samples :
  default_callback false sync_frame new_world =
    (Ok tt,
     {| self := new_api; clientUpdateHandles := []; config_registers := ∅;
        trace := [GpioOutput CE1 true; Print (LoffLine 0 0);
                  Print (SamplesLine (replicate 8 0%float))] |}).
Proof. vm_compute. reflexivity. Qed.

(** On real hardware [open_device] and a start method both raise, and leave
    the lock set and the stream marked active. *)
Example open_then_start_marks_stream_active :
  let w := run_calls false loopback_bus returning_clients
             [OpenDevice; StartTestStream] new_world in
  spi_lock (self w) = true /\ stream_active (self w) = true.
Proof. vm_compute. split; reflexivity. Qed.

(** The list of handles belongs to the class: a handle registered through
    one driver object is in the list that any other object reads. *)
Remark register_client_shared (h : handle) (other : Ads1298Api) (w : world) :
  clientUpdateHandles (with_self (fun _ => other) (register_client h w).2) =
    clientUpdateHandles w ++ [h].
Proof. reflexivity. Qed.

Lemma bytes_sync_frame : bytes sync_frame.
Proof. unfold bytes, sync_frame. cbn. repeat (constructor; [lia |]). constructor. Qed.

Lemma convert_24b_data_sign_extends_witness :
  exists v : Z,
    convert_24b_data [0x80; 0x00; 0x00] FmtSigned = Ok v /\
    v mod 2 ^ 24 = be24 0x80 0x00 0x00 /\
    - 2 ^ 23 <= v <= -1.
Proof.
  exact (proj1 convert_24b_data_sign_extends 0x80 0x00 0x00
           ltac:(lia) ltac:(lia) ltac:(lia)).
Defined.

Lemma set_sampling_rate_4000_raises_witness :
  set_sampling_rate true loopback_bus (world_with_rate 4000) =
    (Err (ValueError "Invalid sample rate"), world_with_rate 4000).
Proof. apply set_sampling_rate_4000_raises. reflexivity. Defined.

Lemma default_callback_sync_assertion_witness :
  fst (default_callback false sync_frame new_world)
    <> Err (AssertionError "Data stream out of sync").
Proof.
  apply (proj1 (default_callback_sync_assertion false sync_frame new_world
                  eq_refl bytes_sync_frame ltac:(cbn; lia))).
  reflexivity.
Defined.

(** C4, at the status word 0x000000: the call raises, it does not return. *)
Lemma default_callback_out_of_sync_raises :
  default_callback false zero_frame new_world =
    (Err (AssertionError "Data stream out of sync"),
     add_event (GpioOutput CE1 true) new_world) /\
  is_ok (fst (default_callback false zero_frame new_world)) = false.
Proof. split; reflexivity. Qed.

Lemma default_callback_frame_length_witness :
  default_callback false sync_frame new_world =
    (Ok tt,
     add_event
       (Print (SamplesLine
                 (map (fun i => physical (channel_group sync_frame i)) (seq 0 NUM_CHANNELS))))
       (add_event
          (Print (LoffLine (Z.land (Z.shiftr (frame_status sync_frame) 12) 0xff)
                           (Z.land (Z.shiftr (frame_status sync_frame) 4) 0xff)))
          (add_event (GpioOutput CE1 true) new_world))).
Proof.
  apply (proj1 (default_callback_frame_length false sync_frame new_world
                  eq_refl bytes_sync_frame eq_refl)).
  cbn. lia.
Defined.

(** C5, at a frame of 28 bytes for 8 channels: the call returns. *)
Lemma default_callback_accepts_long_frame :
  length long_frame = 28%nat /\
  length long_frame <> (3 + 3 * NUM_CHANNELS)%nat /\
  fst (default_callback false long_frame new_world) = Ok tt.
Proof. split; [reflexivity | split; [discriminate | vm_compute; reflexivity]]. Qed.

Lemma ready_signal_ignored_after_stop_witness :
  let w' := (stop_stream false loopback_bus (streaming_world [DefaultCallback])).2 in
  let calls := [RegisterClient (Client 1); Configure (Some 1000) None; ReadySignal 0] in
  drdy_callback false loopback_bus returning_clients 0
    (run_calls false loopback_bus returning_clients calls w') =
  (Ok tt, run_calls false loopback_bus returning_clients calls w').
Proof.
  apply (ready_signal_ignored_after_stop false loopback_bus returning_clients
           (streaming_world [DefaultCallback]));
    [reflexivity | repeat constructor].
Defined.

Lemma control_pin_lookups_raise_witness :
  fst (start_exg_stream true loopback_bus new_world) = Err (AttributeError "START_PIN") /\
  fst (start_test_stream true loopback_bus new_world) = Err (AttributeError "START_PIN").
Proof.
  apply (proj2 (proj2 (proj2 (control_pin_lookups_raise true loopback_bus)))
           ltac:(reflexivity) new_world ltac:(left; reflexivity)).
  left. reflexivity.
Defined.

(** C10, at a driver configured with the rate 250: the start methods raise
    the [ValueError] of [set_sampling_rate], not an [AttributeError]. *)
Lemma start_stream_invalid_rate_raises_value_error :
  fst (start_exg_stream true loopback_bus (world_with_rate 250)) =
    Err (ValueError "Invalid sample rate") /\
  fst (start_test_stream true loopback_bus (world_with_rate 250)) =
    Err (ValueError "Invalid sample rate") /\
  fst (start_exg_stream true loopback_bus (world_with_rate 250)) <>
    Err (AttributeError "START_PIN").
Proof. repeat split; discriminate. Qed.

(** ** Further statements at sample inputs *)

Lemma loopback_bus_replies (h : list event) (tx : list Z) :
  is_ok (loopback_bus h tx) = true.
Proof. reflexivity. Qed.

Lemma bytes_flag_frame : bytes flag_frame.
Proof. unfold bytes, flag_frame. cbn. repeat (constructor; [lia |]). constructor. Qed.

Lemma convert_24b_data_bijective_witness :
  exists b0 b1 b2 : Z,
    bytes [b0; b1; b2] /\ convert_24b_data [b0; b1; b2] FmtSigned = Ok (-5).
Proof. apply (proj2 convert_24b_data_bijective). lia. Defined.

Lemma convert_24b_data_domain_witness :
  is_ok (convert_24b_data [0x12; 0x34; 0x56] FmtSigned) = true.
Proof.
  apply (proj1 (convert_24b_data_domain [0x12; 0x34; 0x56] FmtSigned));
    [reflexivity | apply bytes3; lia].
Defined.

Lemma default_callback_lead_off_flags_witness :
  exists samples : list float,
    default_callback false flag_frame new_world =
      (Ok tt,
       add_event (Print (SamplesLine samples))
         (add_event (Print (LoffLine 0x12 0x34))
            (add_event (GpioOutput CE1 true) new_world))).
Proof.
  apply (default_callback_lead_off_flags false 0xC1 0x23 0x45 (replicate 24 0x00) new_world
           eq_refl bytes_flag_frame ltac:(cbn; lia) eq_refl).
Defined.

Lemma check_device_id_accepts_witness :
  is_ok (check_device_id false id_bus (streaming_world [])).1 = true.
Proof.
  apply (proj2 (proj2 (check_device_id_accepts false id_bus) eq_refl (streaming_world [])
                  [0x00; 0x00; 0x92] 0x92 eq_refl eq_refl eq_refl ltac:(lia))).
  left. reflexivity.
Defined.

Lemma drdy_callback_stub_empty_frame_witness :
  exists (n : nat) (evs : list event),
    (n <= length (clientUpdateHandles (streaming_world [Client 0; Client 1])))%nat /\
    trace (drdy_callback true loopback_bus returning_clients 0
             (streaming_world [Client 0; Client 1])).2 =
      trace (streaming_world [Client 0; Client 1]) ++ evs /\
    transfers evs = [] /\
    dispatched evs =
      map (fun h => (h, [])) (take n (clientUpdateHandles (streaming_world [Client 0; Client 1]))) /\
    (is_ok (drdy_callback true loopback_bus returning_clients 0
              (streaming_world [Client 0; Client 1])).1 = true ->
     n = length (clientUpdateHandles (streaming_world [Client 0; Client 1]))).
Proof. apply drdy_callback_stub_empty_frame; reflexivity. Defined.

Lemma drdy_callback_failed_read_witness :
  drdy_callback false failing_bus returning_clients 0 (streaming_world [Client 0]) =
    (Err OSError,
     add_event (SpiXfer (replicate 27 0x00) spi_speed spi_pause) (streaming_world [Client 0])).
Proof.
  apply (proj2 (drdy_callback_failed_read false failing_bus returning_clients 0
                  (streaming_world [Client 0]) eq_refl eq_refl));
    reflexivity.
Defined.

Lemma drdy_callback_stops_at_raising_handle_witness :
  exists evs : list event,
    (drdy_callback false loopback_bus returning_clients 0
       (streaming_world [Client 0; DefaultCallback; Client 1])).1 =
      Err (AssertionError "Data stream out of sync") /\
    trace (drdy_callback false loopback_bus returning_clients 0
             (streaming_world [Client 0; DefaultCallback; Client 1])).2 =
      trace (add_event (SpiXfer zero_frame spi_speed spi_pause)
               (streaming_world [Client 0; DefaultCallback; Client 1])) ++ evs /\
    dispatched evs = [(Client 0, zero_frame); (DefaultCallback, zero_frame)].
Proof.
  apply (drdy_callback_stops_at_raising_handle false loopback_bus returning_clients 0
           (streaming_world [Client 0; DefaultCallback; Client 1]) _ zero_frame
           [Client 0] DefaultCallback [Client 1]);
    try reflexivity.
  intros h Hh w'. apply list_elem_of_In in Hh. destruct Hh as [<- | []]. reflexivity.
Defined.

Lemma alive_and_lock_are_one_way_witness :
  spi_lock (self (run_calls false loopback_bus returning_clients
                    [CloseDevice; StopStream; OpenDevice] (streaming_world []))) = true.
Proof.
  apply (proj2 (alive_and_lock_are_one_way false loopback_bus returning_clients
                  [CloseDevice; StopStream; OpenDevice] (streaming_world []))).
  reflexivity.
Defined.

Lemma only_configure_changes_settings_witness :
  sampling_rate (self (run_calls false loopback_bus returning_clients
                         [OpenDevice; StartExgStream; StopStream] (world_with_rate 1000))) =
    sampling_rate (self (world_with_rate 1000)) /\
  bias_enabled (self (run_calls false loopback_bus returning_clients
                        [OpenDevice; StartExgStream; StopStream] (world_with_rate 1000))) =
    bias_enabled (self (world_with_rate 1000)).
Proof. apply only_configure_changes_settings. reflexivity. Defined.

Lemma only_stop_stream_clears_stream_witness :
  stream_active (self (run_calls false loopback_bus returning_clients
                         [CloseDevice; Configure (Some 1000) None; ReadySignal 0]
                         (streaming_world []))) = true.
Proof. apply only_stop_stream_clears_stream; reflexivity. Defined.

Lemma stop_stream_failure_keeps_stream_witness :
  false = false /\
  self (add_event (SpiXfer [SDATAC] spi_speed spi_pause) (streaming_world [])) =
    self (streaming_world []) /\
  clientUpdateHandles (add_event (SpiXfer [SDATAC] spi_speed spi_pause) (streaming_world [])) =
    clientUpdateHandles (streaming_world []) /\
  config_registers (add_event (SpiXfer [SDATAC] spi_speed spi_pause) (streaming_world [])) =
    config_registers (streaming_world []).
Proof.
  apply (stop_stream_failure_keeps_stream false failing_bus (streaming_world []) _ OSError).
  reflexivity.
Defined.

Lemma close_device_needs_open_witness :
  is_ok (close_device true
           (run_calls true loopback_bus returning_clients
              [RegisterClient (Client 0); OpenDevice] new_world)).1 = true.
Proof.
  apply (proj1 (close_device_needs_open true loopback_bus returning_clients
                  [RegisterClient (Client 0); OpenDevice])).
  reflexivity.
Defined.

Lemma reset_ongoing_state_effect_witness :
  exists (w' : world) (evs : list event),
    reset_ongoing_state false loopback_bus (streaming_world []) = (Ok tt, w') /\
    self w' = self (streaming_world []) /\
    clientUpdateHandles w' = clientUpdateHandles (streaming_world []) /\
    config_registers w' =
      list_to_map
        [(0x01, rate_code (sampling_rate (self (streaming_world [])))); (0x02, 0xC0);
         (0x03, 0x48);
         (0x05, 0x01); (0x06, 0x01); (0x07, 0x01); (0x08, 0x01);
         (0x09, 0x01); (0x0A, 0x01); (0x0B, 0x01); (0x0C, 0x01);
         (0x0D, 0x00); (0x0E, 0x00)] ∪ config_registers (streaming_world []) /\
    trace w' = trace (streaming_world []) ++ evs /\
    transfers evs =
      [[0x11]; [0x43; 0x00; 0x48];
       [0x41; 0x00; rate_code (sampling_rate (self (streaming_world [])))];
       [0x42; 0x00; 0xC0]; [0x4D; 0x00; 0x00]; [0x4E; 0x00; 0x00];
       [0x45; 7; 1; 1; 1; 1; 1; 1; 1; 1]].
Proof.
  apply (reset_ongoing_state_effect false loopback_bus (streaming_world [])
           loopback_bus_replies ltac:(right; reflexivity) ltac:(left; reflexivity)).
Defined.

Lemma reset_ongoing_state_rejects_rate_late_witness :
  exists (w' : world) (evs : list event),
    reset_ongoing_state true loopback_bus (world_with_rate 250) =
      (Err (ValueError "Invalid sample rate"), w') /\
    self w' = self (world_with_rate 250) /\
    config_registers w' = <[REG_CONFIG3 := 0x48]> (config_registers (world_with_rate 250)) /\
    trace w' = trace (world_with_rate 250) ++ evs /\
    transfers evs = [].
Proof.
  apply (reset_ongoing_state_rejects_rate_late true loopback_bus (world_with_rate 250)
           loopback_bus_replies ltac:(left; reflexivity));
    cbn; lia.
Defined.

Lemma start_test_stream_effect_witness :
  exists (w' : world) (evs : list event),
    start_test_stream true loopback_bus new_world = (Err (AttributeError "START_PIN"), w') /\
    self w' = set_stream_active true (self new_world) /\
    clientUpdateHandles w' = clientUpdateHandles new_world /\
    config_registers w' =
      list_to_map
        [(0x01, rate_code (sampling_rate (self new_world))); (0x02, 0x11); (0x03, 0xC0);
         (0x04, 0x00);
         (0x05, 0x05); (0x06, 0x05); (0x07, 0x05); (0x08, 0x05);
         (0x09, 0x05); (0x0A, 0x05); (0x0B, 0x05); (0x0C, 0x05);
         (0x0D, 0x00); (0x0E, 0x00); (0x0F, 0x00); (0x10, 0x00); (0x11, 0x00);
         (0x17, 0x00)] ∪ config_registers new_world /\
    trace w' = trace new_world ++ evs /\
    transfers evs = [].
Proof.
  apply (start_test_stream_effect true loopback_bus new_world
           loopback_bus_replies ltac:(left; reflexivity) ltac:(left; reflexivity)).
Defined.

Lemma start_exg_stream_effect_witness :
  exists w' : world,
    start_exg_stream false loopback_bus (streaming_world []) =
      (Err (AttributeError "START_PIN"), w') /\
    self w' = set_stream_active true (self (streaming_world [])) /\
    clientUpdateHandles w' = clientUpdateHandles (streaming_world []) /\
    config_registers w' =
      list_to_map
        [(0x01, rate_code (sampling_rate (self (streaming_world [])))); (0x02, 0x00);
         (0x03, 0x48); (0x04, 0x93);
         (0x05, 0x60); (0x06, 0x60); (0x07, 0x60); (0x08, 0x60);
         (0x09, 0x60); (0x0A, 0x60); (0x0B, 0x60); (0x0C, 0x60);
         (0x0D, 0xFF); (0x0E, 0x01);
         (0x0F, 0xFF); (0x10, 0xFF); (0x11, 0xFF); (0x17, 0x02); (0x18, 0x0A)]
        ∪ config_registers (streaming_world []).
Proof.
  apply (start_exg_stream_effect false loopback_bus (streaming_world [])
           loopback_bus_replies ltac:(right; reflexivity) ltac:(left; reflexivity)).
Defined.

Lemma configured_rate_reaches_config1_witness :
  is_ok (set_sampling_rate true loopback_bus (configure (Some 1000) None new_world).2).1 = true /\
  config_registers
    (set_sampling_rate true loopback_bus (configure (Some 1000) None new_world).2).2
    !! REG_CONFIG1 = Some 0x85.
Proof.
  apply (configured_rate_reaches_config1 true loopback_bus 1000 None new_world
           loopback_bus_replies ltac:(left; reflexivity) eq_refl
           ltac:(right; left; reflexivity)).
Defined.

Lemma configure_all_channels_effect_witness :
  exists (w' : world) (evs : list event),
    configure_all_channels false loopback_bus 0x60 (streaming_world []) = (Ok tt, w') /\
    (forall addr : Z,
        config_registers w' !! addr =
          if decide (0x05 <= addr <= 0x0C) then Some 0x60
          else config_registers (streaming_world []) !! addr) /\
    trace w' = trace (streaming_world []) ++ evs /\
    transfers evs = [[0x45; 7; 0x60; 0x60; 0x60; 0x60; 0x60; 0x60; 0x60; 0x60]].
Proof.
  apply (configure_all_channels_effect false loopback_bus 0x60 (streaming_world [])
           loopback_bus_replies ltac:(right; reflexivity)).
Defined.

Lemma register_image_in_map_witness :
  (0x01 <= 0x05 <= 0x11 \/ 0x05 = 0x17 \/ 0x05 = 0x18) /\ 0 <= 0x60 <= 255.
Proof.
  apply (register_image_in_map true loopback_bus returning_clients
           [OpenDevice; StartExgStream] new_world).
  - intros addr v H. unfold new_world in H. cbn [config_registers] in H.
    rewrite lookup_empty in H. discriminate H.
  - vm_compute. reflexivity.
Defined.

(** ** Ready signals at sample inputs *)


Lemma clients_called_in_order_until_raise_witness :
  is_ok (drdy_callback false sync_bus returning_clients 0
           (streaming_world [Client 0; DefaultCallback; Client 1])).1 = true.
Proof.
  destruct (proj1 (clients_called_in_order_until_raise false sync_bus returning_clients)
              0 (streaming_world [Client 0; DefaultCallback; Client 1]) _ sync_frame
              eq_refl eq_refl)
    as (n & evs & _ & _ & _ & _ & Hret).
  apply Hret. intros h Hh w'.
  apply list_elem_of_In in Hh. destruct Hh as [<- | [<- | [<- | []]]]; reflexivity.
Defined.

(** C9, at a driver with three handles whose second one is
    [default_callback], on a frame out of sync: the call raises the assertion
    of [default_callback] and the third handle is not entered. *)
Lemma raising_handle_starves_later_handles :
  let w := run_calls false loopback_bus returning_clients
             [RegisterClient (Client 0); RegisterClient DefaultCallback;
              RegisterClient (Client 1); OpenDevice; StartTestStream] new_world in
  let after := drdy_callback false loopback_bus returning_clients 0 w in
  stream_active (self w) = true /\
  clientUpdateHandles w = [Client 0; DefaultCallback; Client 1] /\
  after.1 = Err (AssertionError "Data stream out of sync") /\
  dispatched (drop (length (trace w)) (trace after.2)) =
    [(Client 0, zero_frame); (DefaultCallback, zero_frame)].
Proof. vm_compute. repeat split; reflexivity. Qed.

Lemma drdy_callback_keeps_state_witness :
  self (drdy_callback false sync_bus returning_clients 0
          (streaming_world [DefaultCallback])).2 =
    self (streaming_world [DefaultCallback]) /\
  clientUpdateHandles (drdy_callback false sync_bus returning_clients 0
                         (streaming_world [DefaultCallback])).2 =
    clientUpdateHandles (streaming_world [DefaultCallback]) /\
  config_registers (drdy_callback false sync_bus returning_clients 0
                      (streaming_world [DefaultCallback])).2 =
    config_registers (streaming_world [DefaultCallback]).
Proof.
  apply drdy_callback_keeps_state. repeat constructor.
Defined.
